(** * Shallow embedding of the LiveKit telephony layer of the voice service

    Sources: [src/apps/voice-service/livekit_telephony.py] (class
    [LiveKitTelephonyManager]), [src/apps/voice-service/main.py]
    (the telephony handlers), [src/apps/voice-service/livekit_manager.py]
    ([run_async], the configuration, token, room and agent-process
    routes), [src/apps/voice-service/agent_creator.py] (agent ids, class
    names, instruction escaping, requirements) and
    [src/apps/voice-service/magnus_billing.py] (client construction and
    [_make_request]).

    Modelling choices:
    - result dictionaries are association lists from keys to Python values;
    - a Python exception is its class (subclass of [Exception] or not,
      which decides whether [except Exception] catches it) and [str(e)];
    - the LiveKit server is an oracle record: each API method maps its
      request to a response or to a raised exception;
    - the effect of an operation is the list of client events it causes
      (client opened, remote method invoked, client closed);
    - [uuid.uuid4()] is an explicit input: the string drawn for the call. *)

From Stdlib Require Import String Ascii List Bool Arith Lia.
Import ListNotations.
Open Scope string_scope.
Set Warnings "-register-all".

(** ** Python values and dictionaries *)

Inductive pyval : Type :=
| PNone
| PBool (b : bool)
| PInt (n : nat)
| PStr (s : string)
| PList (l : list pyval)
| PDict (d : list (string * pyval)).

Definition dict := list (string * pyval).

Fixpoint dict_get (k : string) (d : dict) : option pyval :=
  match d with
  | [] => None
  | (k', v) :: d' => if String.eqb k k' then Some v else dict_get k d'
  end.

(** [d[k] = v]: overwrite in place, or append a new key at the end. *)
Fixpoint dict_set (k : string) (v : pyval) (d : dict) : dict :=
  match d with
  | [] => [(k, v)]
  | (k', v') :: d' =>
      if String.eqb k k' then (k', v) :: d' else (k', v') :: dict_set k v d'
  end.

(** [{**d1, **d2}] *)
Definition dict_merge (d1 d2 : dict) : dict :=
  fold_left (fun acc kv => dict_set (fst kv) (snd kv) acc) d2 d1.

(** Truthiness of an [Optional[str]] and of an [Optional[List[...]]]. *)
Definition str_truthy (s : option string) : bool :=
  match s with
  | Some s' => negb (String.eqb s' "")
  | None => false
  end.

Definition list_truthy {A} (l : option (list A)) : bool :=
  match l with
  | Some (_ :: _) => true
  | _ => false
  end.

(** [x or "unknown"] for an optional string. *)
Definition or_unknown (s : option string) : string :=
  match s with
  | Some s' => if String.eqb s' "" then "unknown" else s'
  | None => "unknown"
  end.

(** [str(n)] for a non-negative Python int. *)
Definition digit_char (n : nat) : ascii := ascii_of_nat (48 + n).

Fixpoint decimal_aux (fuel n : nat) : string :=
  match fuel with
  | 0 => ""
  | S f =>
      if Nat.ltb n 10 then String (digit_char n) ""
      else decimal_aux f (Nat.div n 10) ++ String (digit_char (Nat.modulo n 10)) ""
  end.

Definition str_of_nat (n : nat) : string := decimal_aux (S n) n.

(** [sep.join(l)] *)
Fixpoint join (sep : string) (l : list string) : string :=
  match l with
  | [] => ""
  | [x] => x
  | x :: l' => x ++ sep ++ join sep l'
  end.

(** [s.replace(c, '')] for a one-character pattern. *)
Fixpoint remove_char (c : ascii) (s : string) : string :=
  match s with
  | EmptyString => EmptyString
  | String c' s' =>
      if Ascii.eqb c c' then remove_char c s' else String c' (remove_char c s')
  end.

(** ** Exceptions, client events and the operation monad *)

Record exn := Exn {
  exn_is_exception : bool;  (** caught by [except Exception] *)
  exn_str : string          (** [str(e)] *)
}.

Inductive outcome (A : Type) : Type :=
| Ok (a : A)
| Raise (e : exn).
Arguments Ok {A} a.
Arguments Raise {A} e.

Inductive event : Type :=
| EvOpen                    (** [lkapi = api.LiveKitAPI()] *)
| EvCall (method : string)  (** [await lkapi.<service>.<method>(...)] *)
| EvClose.                  (** [await lkapi.aclose()] *)

Definition trace := list event.

Definition M (A : Type) : Type := trace -> trace * outcome A.

Definition ret {A} (a : A) : M A := fun t => (t, Ok a).

Definition bind {A B} (m : M A) (k : A -> M B) : M B :=
  fun t =>
    match m t with
    | (t', Ok a) => k a t'
    | (t', Raise e) => (t', Raise e)
    end.

Notation "x <- m ;; k" := (bind m (fun x => k))
  (at level 61, m at next level, right associativity).

(** One awaited remote method: recorded, then its response or exception. *)
Definition remote_call {A} (meth : string) (o : outcome A) : M A :=
  fun t => ((t ++ [EvCall meth])%list, o).

(** The common frame of every operation past the credential gate:
<<
    lkapi = api.LiveKitAPI()
    try:
        <body>
    except Exception as e:
        return <handler(str(e))>
    finally:
        await lkapi.aclose()
>> *)
Definition with_client (body : M dict) (handler : string -> dict) : M dict :=
  fun t =>
    let '(t1, r) := body (t ++ [EvOpen])%list in
    let r' := match r with
              | Ok d => Ok d
              | Raise e =>
                  if exn_is_exception e then Ok (handler (exn_str e)) else Raise e
              end in
    ((t1 ++ [EvClose])%list, r').

(** ** Requests and responses of the LiveKit API used by the manager

    JSON strings built with [json.dumps] are kept as the key/value lists
    they serialise. *)

Record inbound_trunk_info := {
  it_name : string;
  it_numbers : list string;
  it_allowed_addresses : list string;
  it_allowed_numbers : list string;
  it_krisp_enabled : bool;
  it_headers : list (string * string);
  it_headers_to_attributes : list (string * string)
}.

Record outbound_trunk_info := {
  ot_name : string;
  ot_address : string;
  ot_auth_username : string;
  ot_auth_password : string;
  ot_numbers : list string
}.

Record dispatch_rule_info := {
  dr_room_prefix : string;            (** [SIPDispatchRuleIndividual.room_prefix] *)
  dr_name : string;
  dr_trunk_ids : list string;
  dr_hide_phone_number : bool;
  dr_metadata : list (string * string);
  dr_attributes : list (string * string);
  dr_agent_name : string;             (** [room_config.agents[0].agent_name] *)
  dr_agent_metadata : list (string * string)
}.

Record agent_dispatch_request := {
  ad_agent_name : string;
  ad_room : string;
  ad_metadata : list (string * string)  (** [] stands for [""] *)
}.

Record sip_participant_request := {
  sp_sip_trunk_id : string;
  sp_sip_call_to : string;
  sp_sip_number : string;
  sp_room_name : string;
  sp_participant_identity : string;
  sp_participant_name : string;
  sp_play_ringtone : bool
}.

Record trunk_result := { tr_sip_trunk_id : string; tr_numbers : list string }.
Record inbound_item := {
  ii_sip_trunk_id : string; ii_name : string; ii_numbers : list string;
  ii_krisp_enabled : bool }.
Record outbound_item := {
  oi_sip_trunk_id : string; oi_name : string; oi_numbers : list string;
  oi_address : string }.
Record rule_item := {
  ri_sip_dispatch_rule_id : string; ri_name : string; ri_trunk_ids : list string }.

(** The LiveKit server as seen through [api.LiveKitAPI()]. *)
Record remote := {
  create_sip_inbound_trunk : inbound_trunk_info -> outcome trunk_result;
  create_sip_outbound_trunk : outbound_trunk_info -> outcome trunk_result;
  create_sip_dispatch_rule : dispatch_rule_info -> outcome string;
  list_sip_inbound_trunk : outcome (list inbound_item);
  list_sip_outbound_trunk : outcome (list outbound_item);
  list_sip_dispatch_rule : outcome (list rule_item);
  delete_sip_trunk : string -> outcome unit;
  delete_sip_dispatch_rule : string -> outcome unit;
  create_room : string -> outcome unit;
  create_dispatch : agent_dispatch_request -> outcome unit;
  create_sip_participant : sip_participant_request -> outcome string
}.

(** ** [LiveKitTelephonyManager] *)

Record manager := {
  livekit_url : option string;
  livekit_api_key : option string;
  livekit_api_secret : option string
}.

Definition check_credentials (self : manager) : option dict :=
  if forallb str_truthy
       [self.(livekit_url); self.(livekit_api_key); self.(livekit_api_secret)]
  then None
  else Some [("success", PBool false);
             ("error", PStr "LiveKit credentials not configured")].

(** [if error: return {**error, **extra}] followed by the guarded code. *)
Definition gated (self : manager) (extra : dict) (k : M dict) : M dict :=
  match check_credentials self with
  | Some error => ret (dict_merge error extra)
  | None => k
  end.

Definition pystrs (l : list string) : pyval := PList (map PStr l).

Definition org_prefix (organization_id : string) : string :=
  substring 0 8 organization_id.

Definition create_inbound_trunk (self : manager) (rem : remote)
    (phone_numbers : list string) (user_id organization_id : option string)
    : M dict :=
  gated self [("trunk_id", PNone)]
    (with_client
       (let trunk_name :=
          match organization_id with
          | Some o => if String.eqb o "" then "Inbound Trunk"
                      else "Org " ++ org_prefix o ++ " Inbound"
          | None => "Inbound Trunk"
          end in
        let trunk := {|
          it_name := trunk_name;
          it_numbers := phone_numbers;
          it_allowed_addresses := [];
          it_allowed_numbers := [];
          it_krisp_enabled := true;
          it_headers := [("X-Platform", "Epic-AI");
                         ("X-User-ID", or_unknown user_id);
                         ("X-Org-ID", or_unknown organization_id)];
          it_headers_to_attributes := [("X-Customer-ID", "customer_id")] |} in
        result <- remote_call "create_sip_inbound_trunk"
                    (rem.(create_sip_inbound_trunk) trunk) ;;
        ret [("success", PBool true);
             ("trunk_id", PStr result.(tr_sip_trunk_id));
             ("numbers", pystrs result.(tr_numbers));
             ("error", PNone)])
       (fun e => [("success", PBool false); ("trunk_id", PNone); ("error", PStr e)])).

Definition create_outbound_trunk (self : manager) (rem : remote)
    (username password sip_domain : string) (phone_numbers : list string)
    (user_id organization_id : option string) (port : nat) : M dict :=
  gated self [("trunk_id", PNone)]
    (with_client
       (let trunk_name :=
          match organization_id with
          | Some o => if String.eqb o "" then "Outbound Trunk - Magnus"
                      else "Org " ++ org_prefix o ++ " Outbound - Magnus"
          | None => "Outbound Trunk - Magnus"
          end in
        let sip_address := sip_domain ++ ":" ++ str_of_nat port in
        let trunk := {|
          ot_name := trunk_name;
          ot_address := sip_address;
          ot_auth_username := username;
          ot_auth_password := password;
          ot_numbers := phone_numbers |} in
        result <- remote_call "create_sip_outbound_trunk"
                    (rem.(create_sip_outbound_trunk) trunk) ;;
        ret [("success", PBool true);
             ("trunk_id", PStr result.(tr_sip_trunk_id));
             ("numbers", pystrs result.(tr_numbers));
             ("error", PNone)])
       (fun e => [("success", PBool false); ("trunk_id", PNone); ("error", PStr e)])).

(** The locals [numbers_str] / [rule_name] of [create_dispatch_rule]. *)
Definition numbers_str_of (phone_numbers : option (list string)) : string :=
  let numbers_str :=
    match phone_numbers with
    | Some ((_ :: _) as l) => join ", " (firstn 2 l)
    | _ => "All"
    end in
  match phone_numbers with
  | Some l =>
      if list_truthy phone_numbers && Nat.ltb 2 (length l)
      then numbers_str ++ " +" ++ str_of_nat (length l - 2)
      else numbers_str
  | None => numbers_str
  end.

Definition rule_name_of (agent_name : string)
    (phone_numbers : option (list string)) : string :=
  "Agent: " ++ agent_name ++ " -> " ++ numbers_str_of phone_numbers.

(** The locals [phone_number] / [phone_digits] / [room_prefix]. *)
Definition first_phone_number (phone_numbers : option (list string))
    : option string :=
  match phone_numbers with
  | Some (x :: _) => Some x
  | _ => None
  end.

Definition room_prefix_of (phone_numbers : option (list string)) : string :=
  let phone_number := first_phone_number phone_numbers in
  let phone_digits :=
    match phone_number with
    | Some p =>
        if String.eqb p "" then "unknown"
        else remove_char " " (remove_char "-" (remove_char "+" p))
    | None => "unknown"
    end in
  "sip-" ++ phone_digits ++ "__".

Definition dispatch_info_of (agent_name : string)
    (trunk_ids phone_numbers : option (list string))
    (user_id organization_id : option string) : dispatch_rule_info :=
  let phone_number := first_phone_number phone_numbers in
  {| dr_room_prefix := room_prefix_of phone_numbers;
     dr_name := rule_name_of agent_name phone_numbers;
     dr_trunk_ids := match trunk_ids with Some l => l | None => [] end;
     dr_hide_phone_number := false;
     dr_metadata := [("user_id", or_unknown user_id);
                     ("org_id", or_unknown organization_id);
                     ("agent", agent_name);
                     ("phone_number", or_unknown phone_number)];
     dr_attributes := [("call_type", "inbound");
                       ("platform", "epic-ai");
                       ("user_id", or_unknown user_id)];
     dr_agent_name := agent_name;
     dr_agent_metadata := [("source", "inbound_call");
                           ("user_id", or_unknown user_id);
                           ("org_id", or_unknown organization_id);
                           ("phone_number", or_unknown phone_number)] |}.

Definition create_dispatch_rule (self : manager) (rem : remote)
    (agent_name : string) (trunk_ids phone_numbers : option (list string))
    (user_id organization_id : option string) : M dict :=
  gated self [("rule_id", PNone)]
    (with_client
       (let dispatch_info :=
          dispatch_info_of agent_name trunk_ids phone_numbers user_id organization_id in
        rid <- remote_call "create_sip_dispatch_rule"
                 (rem.(create_sip_dispatch_rule) dispatch_info) ;;
        ret [("success", PBool true); ("rule_id", PStr rid); ("error", PNone)])
       (fun e => [("success", PBool false); ("rule_id", PNone); ("error", PStr e)])).

Definition list_inbound_trunks (self : manager) (rem : remote) : M dict :=
  gated self [("trunks", PList [])]
    (with_client
       (items <- remote_call "list_sip_inbound_trunk" rem.(list_sip_inbound_trunk) ;;
        let trunks :=
          map (fun t => PDict [("trunk_id", PStr t.(ii_sip_trunk_id));
                               ("name", PStr t.(ii_name));
                               ("numbers", pystrs t.(ii_numbers));
                               ("krisp_enabled", PBool t.(ii_krisp_enabled))]) items in
        ret [("success", PBool true); ("trunks", PList trunks); ("error", PNone)])
       (fun e => [("success", PBool false); ("trunks", PList []); ("error", PStr e)])).

Definition list_outbound_trunks (self : manager) (rem : remote) : M dict :=
  gated self [("trunks", PList [])]
    (with_client
       (items <- remote_call "list_sip_outbound_trunk" rem.(list_sip_outbound_trunk) ;;
        let trunks :=
          map (fun t => PDict [("trunk_id", PStr t.(oi_sip_trunk_id));
                               ("name", PStr t.(oi_name));
                               ("numbers", pystrs t.(oi_numbers));
                               ("address", PStr t.(oi_address))]) items in
        ret [("success", PBool true); ("trunks", PList trunks); ("error", PNone)])
       (fun e => [("success", PBool false); ("trunks", PList []); ("error", PStr e)])).

Definition list_dispatch_rules (self : manager) (rem : remote) : M dict :=
  gated self [("rules", PList [])]
    (with_client
       (items <- remote_call "list_sip_dispatch_rule" rem.(list_sip_dispatch_rule) ;;
        let rules :=
          map (fun r => PDict [("rule_id", PStr r.(ri_sip_dispatch_rule_id));
                               ("name", PStr r.(ri_name));
                               ("trunk_ids", pystrs r.(ri_trunk_ids))]) items in
        ret [("success", PBool true); ("rules", PList rules); ("error", PNone)])
       (fun e => [("success", PBool false); ("rules", PList []); ("error", PStr e)])).

Definition delete_inbound_trunk (self : manager) (rem : remote)
    (trunk_id : string) : M dict :=
  gated self []
    (with_client
       (_ <- remote_call "delete_sip_trunk" (rem.(delete_sip_trunk) trunk_id) ;;
        ret [("success", PBool true); ("error", PNone)])
       (fun e => [("success", PBool false); ("error", PStr e)])).

Definition delete_dispatch_rule (self : manager) (rem : remote)
    (rule_id : string) : M dict :=
  gated self []
    (with_client
       (_ <- remote_call "delete_sip_dispatch_rule"
               (rem.(delete_sip_dispatch_rule) rule_id) ;;
        ret [("success", PBool true); ("error", PNone)])
       (fun e => [("success", PBool false); ("error", PStr e)])).

(** *** [create_outbound_call] *)

Definition call_id_of (uuid4 : string) : string := substring 0 8 uuid4.

Definition outbound_room_name (call_id : string)
    (agent_config_id : option string) : string :=
  match agent_config_id with
  | Some c => if String.eqb c "" then "outbound-" ++ call_id
              else "outbound-" ++ call_id ++ "-" ++ c
  | None => "outbound-" ++ call_id
  end.

Definition dispatch_metadata (agent_config_id organization_id : option string)
    : list (string * string) :=
  (match agent_config_id with
   | Some c => if String.eqb c "" then [] else [("agent_config_id", c)]
   | None => [] end ++
   match organization_id with
   | Some o => if String.eqb o "" then [] else [("organization_id", o)]
   | None => [] end)%list.

Definition dispatch_request_of (agent_name room_name : string)
    (agent_config_id organization_id : option string) : agent_dispatch_request :=
  {| ad_agent_name := agent_name;
     ad_room := room_name;
     ad_metadata := dispatch_metadata agent_config_id organization_id |}.

Definition sip_request_of (from_number to_number trunk_id room_name call_id : string)
    : sip_participant_request :=
  {| sp_sip_trunk_id := trunk_id;
     sp_sip_call_to := to_number;
     sp_sip_number := from_number;
     sp_room_name := room_name;
     sp_participant_identity := "caller-" ++ call_id;
     sp_participant_name := "Outbound Call to " ++ to_number;
     sp_play_ringtone := true |}.

Definition create_outbound_call (self : manager) (rem : remote) (uuid4 : string)
    (from_number to_number trunk_id agent_name : string)
    (agent_config_id organization_id : option string) : M dict :=
  gated self [("room_name", PNone); ("call_id", PNone)]
    (with_client
       (let call_id := call_id_of uuid4 in
        let room_name := outbound_room_name call_id agent_config_id in
        _ <- remote_call "create_room" (rem.(create_room) room_name) ;;
        _ <- (if negb (String.eqb agent_name "") then
                remote_call "create_dispatch"
                  (rem.(create_dispatch)
                     (dispatch_request_of agent_name room_name
                        agent_config_id organization_id))
              else ret tt) ;;
        pid <- remote_call "create_sip_participant"
                 (rem.(create_sip_participant)
                    (sip_request_of from_number to_number trunk_id room_name call_id)) ;;
        ret [("success", PBool true);
             ("room_name", PStr room_name);
             ("call_id", PStr call_id);
             ("participant_id", PStr pid);
             ("error", PNone)])
       (fun e => [("success", PBool false); ("room_name", PNone);
                  ("call_id", PNone); ("error", PStr e)])).

(** *** The public operations, for statements about all of them *)

Inductive public_op : Type :=
| OpCreateInboundTrunk (phone_numbers : list string)
    (user_id organization_id : option string)
| OpCreateOutboundTrunk (username password sip_domain : string)
    (phone_numbers : list string) (user_id organization_id : option string)
    (port : nat)
| OpCreateDispatchRule (agent_name : string)
    (trunk_ids phone_numbers : option (list string))
    (user_id organization_id : option string)
| OpListInboundTrunks
| OpListOutboundTrunks
| OpListDispatchRules
| OpDeleteInboundTrunk (trunk_id : string)
| OpDeleteDispatchRule (rule_id : string)
| OpCreateOutboundCall (uuid4 : string)
    (from_number to_number trunk_id agent_name : string)
    (agent_config_id organization_id : option string).

Definition run_op (self : manager) (rem : remote) (o : public_op) : M dict :=
  match o with
  | OpCreateInboundTrunk n u g => create_inbound_trunk self rem n u g
  | OpCreateOutboundTrunk us pw d n u g p =>
      create_outbound_trunk self rem us pw d n u g p
  | OpCreateDispatchRule a t n u g => create_dispatch_rule self rem a t n u g
  | OpListInboundTrunks => list_inbound_trunks self rem
  | OpListOutboundTrunks => list_outbound_trunks self rem
  | OpListDispatchRules => list_dispatch_rules self rem
  | OpDeleteInboundTrunk t => delete_inbound_trunk self rem t
  | OpDeleteDispatchRule r => delete_dispatch_rule self rem r
  | OpCreateOutboundCall uu f t k a c g =>
      create_outbound_call self rem uu f t k a c g
  end.

Definition creds_ok (self : manager) : bool :=
  forallb str_truthy
    [self.(livekit_url); self.(livekit_api_key); self.(livekit_api_secret)].

(** *** [str(uuid.uuid4())]: 8-4-4-4-12 lowercase hexadecimal digits *)

Definition is_hex_digit (c : ascii) : bool :=
  let n := nat_of_ascii c in
  (Nat.leb 48 n && Nat.leb n 57) || (Nat.leb 97 n && Nat.leb n 102).

Definition uuid_template : list bool :=
  (repeat true 8 ++ [false] ++ repeat true 4 ++ [false] ++ repeat true 4 ++
   [false] ++ repeat true 4 ++ [false] ++ repeat true 12)%list.

Fixpoint match_template (tpl : list bool) (cs : list ascii) : bool :=
  match tpl, cs with
  | [], [] => true
  | b :: tpl', c :: cs' =>
      (if b then is_hex_digit c else Ascii.eqb c "-") && match_template tpl' cs'
  | _, _ => false
  end.

Definition uuid_str_wf (u : string) : bool :=
  match_template uuid_template (list_ascii_of_string u).

Definition all_hex (s : string) : bool :=
  forallb is_hex_digit (list_ascii_of_string s).

(** ** [main.py]: the HTTP handler [make_outbound_call]

    The JSON body is taken as an object with string values. *)

Definition json_body := list (string * string).

Definition body_has (k : string) (data : json_body) : bool :=
  existsb (fun kv => String.eqb (fst kv) k) data.

Definition body_get (k : string) (data : json_body) : option string :=
  match find (fun kv => String.eqb (fst kv) k) data with
  | Some (_, v) => Some v
  | None => None
  end.

(** [data[k]] for a key already known to be present. *)
Definition body_item (k : string) (data : json_body) : string :=
  match body_get k data with Some v => v | None => "" end.

Definition required_fields : list string :=
  ["from_number"; "to_number"; "trunk_id"; "agent_name"].

Fixpoint first_missing (required : list string) (data : json_body) : option string :=
  match required with
  | [] => None
  | f :: r => if body_has f data then first_missing r data else Some f
  end.

Definition success_of (d : dict) : bool :=
  match dict_get "success" d with Some (PBool true) => true | _ => false end.

(** The response: HTTP status and JSON object. *)
Definition make_outbound_call (self : manager) (rem : remote) (uuid4 : string)
    (data : json_body) : M (nat * dict) :=
  fun t =>
    match first_missing required_fields data with
    | Some field => (t, Ok (400, [("error", PStr (field ++ " required"))]))
    | None =>
        let '(t', r) :=
          create_outbound_call self rem uuid4
            (body_item "from_number" data) (body_item "to_number" data)
            (body_item "trunk_id" data) (body_item "agent_name" data)
            (body_get "agent_config_id" data) (body_get "organization_id" data) t in
        match r with
        | Ok result => (t', Ok (if success_of result then 201 else 500, result))
        | Raise e =>
            if exn_is_exception e then (t', Ok (500, [("error", PStr (exn_str e))]))
            else (t', Raise e)
        end
    end.

(** ** [livekit_manager.py]: [run_async]

    [_executor = ThreadPoolExecutor(max_workers=4)] and
    [future.result(timeout=30)].  The coroutine's run is given by the time,
    in seconds after submission, at which the worker finishes it ([None]:
    it does not finish) and by its outcome. *)

Definition executor_max_workers : nat := 4.
Definition run_async_timeout : nat := 30.

(** [concurrent.futures.TimeoutError()], a subclass of [Exception]. *)
Definition futures_timeout_error : exn :=
  {| exn_is_exception := true; exn_str := "" |}.

Definition run_async {A} (finish : option nat) (o : outcome A) : outcome A :=
  match finish with
  | Some t => if Nat.leb t run_async_timeout then o else Raise futures_timeout_error
  | None => Raise futures_timeout_error
  end.

(** ** Reading of the spec: the room-prefix digits

    "strip the characters [+], [-], and space": drop every such character
    from the number. *)
Definition strip_chars_spec (p : string) : string :=
  string_of_list_ascii
    (filter (fun c => negb (existsb (fun x => Ascii.eqb x c) ["+"; "-"; " "]%char))
       (list_ascii_of_string p)).

(** ** [main.py]: the other telephony handlers

    Each handler runs one manager operation and answers
    [jsonify(result), ok_status if result['success'] else 500]; an
    [Exception] escaping the operation is answered by
    [{"error": str(e)}, 500].  The JSON bodies are taken with the types the
    manager expects: [None] stands for a key absent from the body. *)

Module Main.

Definition respond (ok_status : nat) (m : M dict) : M (nat * dict) :=
  fun t =>
    let '(t', r) := m t in
    match r with
    | Ok result => (t', Ok (if success_of result then ok_status else 500, result))
    | Raise e =>
        if exn_is_exception e then (t', Ok (500, [("error", PStr (exn_str e))]))
        else (t', Raise e)
    end.

Definition list_inbound_trunks (self : manager) (rem : remote) : M (nat * dict) :=
  respond 200 (list_inbound_trunks self rem).

Record inbound_trunk_body := {
  ib_phone_numbers : option (list string);
  ib_user_id : option string;
  ib_organization_id : option string }.

Definition create_inbound_trunk (self : manager) (rem : remote)
    (data : inbound_trunk_body) : M (nat * dict) :=
  let phone_numbers :=
    match data.(ib_phone_numbers) with Some l => l | None => [] end in
  match phone_numbers with
  | [] => ret (400, [("error", PStr "phone_numbers required")])
  | _ :: _ =>
      respond 201
        (create_inbound_trunk self rem phone_numbers
           data.(ib_user_id) data.(ib_organization_id))
  end.

Definition list_outbound_trunks (self : manager) (rem : remote) : M (nat * dict) :=
  respond 200 (list_outbound_trunks self rem).

Record outbound_trunk_body := {
  ob_username : option string;
  ob_password : option string;
  ob_sip_domain : option string;
  ob_phone_numbers : option (list string);
  ob_user_id : option string;
  ob_organization_id : option string;
  ob_port : option nat }.

Definition missing (field : string) : M (nat * dict) :=
  ret (400, [("error", PStr (field ++ " required"))]).

Definition create_outbound_trunk (self : manager) (rem : remote)
    (data : outbound_trunk_body) : M (nat * dict) :=
  match data.(ob_username) with
  | None => missing "username"
  | Some username =>
  match data.(ob_password) with
  | None => missing "password"
  | Some password =>
  match data.(ob_sip_domain) with
  | None => missing "sip_domain"
  | Some sip_domain =>
  match data.(ob_phone_numbers) with
  | None => missing "phone_numbers"
  | Some phone_numbers =>
      respond 201
        (create_outbound_trunk self rem username password sip_domain phone_numbers
           data.(ob_user_id) data.(ob_organization_id)
           (match data.(ob_port) with Some p => p | None => 5060 end))
  end end end end.

Definition delete_trunk (self : manager) (rem : remote) (trunk_id : string)
    : M (nat * dict) :=
  respond 200 (delete_inbound_trunk self rem trunk_id).

Definition list_dispatch_rules (self : manager) (rem : remote) : M (nat * dict) :=
  respond 200 (list_dispatch_rules self rem).

Record dispatch_rule_body := {
  db_agent_name : option string;
  db_trunk_ids : option (list string);
  db_phone_numbers : option (list string);
  db_user_id : option string;
  db_organization_id : option string }.

Definition create_dispatch_rule (self : manager) (rem : remote)
    (data : dispatch_rule_body) : M (nat * dict) :=
  match data.(db_agent_name) with
  | None => missing "agent_name"
  | Some agent_name =>
      respond 201
        (create_dispatch_rule self rem agent_name data.(db_trunk_ids)
           data.(db_phone_numbers) data.(db_user_id) data.(db_organization_id))
  end.

Definition delete_dispatch_rule (self : manager) (rem : remote) (rule_id : string)
    : M (nat * dict) :=
  respond 200 (delete_dispatch_rule self rem rule_id).

(** The telephony routes, for statements about all of them. *)
Inductive request : Type :=
| GetInboundTrunks
| PostInboundTrunk (data : inbound_trunk_body)
| GetOutboundTrunks
| PostOutboundTrunk (data : outbound_trunk_body)
| DeleteTrunk (trunk_id : string)
| GetDispatchRules
| PostDispatchRule (data : dispatch_rule_body)
| DeleteDispatchRule (rule_id : string)
| PostCall (uuid4 : string) (data : json_body).

Definition route (self : manager) (rem : remote) (r : request) : M (nat * dict) :=
  match r with
  | GetInboundTrunks => list_inbound_trunks self rem
  | PostInboundTrunk d => create_inbound_trunk self rem d
  | GetOutboundTrunks => list_outbound_trunks self rem
  | PostOutboundTrunk d => create_outbound_trunk self rem d
  | DeleteTrunk i => delete_trunk self rem i
  | GetDispatchRules => list_dispatch_rules self rem
  | PostDispatchRule d => create_dispatch_rule self rem d
  | DeleteDispatchRule i => delete_dispatch_rule self rem i
  | PostCall u d => make_outbound_call self rem u d
  end.

(** The status of a successful answer: 201 for a creation, 200 otherwise. *)
Definition ok_status (r : request) : nat :=
  match r with
  | PostInboundTrunk _ | PostOutboundTrunk _ | PostDispatchRule _ | PostCall _ _ => 201
  | _ => 200
  end.

End Main.

(** ** Python string methods used below

    Strings are sequences of code points below 256. *)

Definition char_in (lo hi : nat) (c : ascii) : bool :=
  Nat.leb lo (nat_of_ascii c) && Nat.leb (nat_of_ascii c) hi.

(** [s.replace(old, new)] for a non-empty [old]: left to right, without
    overlaps; [skip] counts the characters of a replaced occurrence still
    to pass over. *)
Fixpoint replace_from (old new : string) (skip : nat) (s : string) : string :=
  match s with
  | EmptyString => EmptyString
  | String c s' =>
      match skip with
      | S k => replace_from old new k s'
      | 0 =>
          if String.prefix old s
          then new ++ replace_from old new (String.length old - 1) s'
          else String c (replace_from old new 0 s')
      end
  end.

Definition py_replace (old new s : string) : string := replace_from old new 0 s.

(** [old in s] *)
Fixpoint contains (old s : string) : bool :=
  String.prefix old s ||
  match s with
  | EmptyString => false
  | String _ s' => contains old s'
  end.

Fixpoint str_map (f : ascii -> ascii) (s : string) : string :=
  match s with
  | EmptyString => EmptyString
  | String c s' => String (f c) (str_map f s')
  end.

Fixpoint str_filter (p : ascii -> bool) (s : string) : string :=
  match s with
  | EmptyString => EmptyString
  | String c s' => if p c then String c (str_filter p s') else str_filter p s'
  end.

Definition str_all (p : ascii -> bool) (s : string) : bool :=
  forallb p (list_ascii_of_string s).

(** [str.isspace] on code points below 256. *)
Definition py_isspace (c : ascii) : bool :=
  char_in 9 13 c || char_in 28 32 c || Nat.eqb (nat_of_ascii c) 133 ||
  Nat.eqb (nat_of_ascii c) 160.

(** [str.lower] on code points below 256: ASCII and Latin-1 capitals. *)
Definition py_lower_char (c : ascii) : ascii :=
  if char_in 65 90 c || char_in 192 214 c || char_in 216 222 c
  then ascii_of_nat (nat_of_ascii c + 32) else c.

Definition py_lower (s : string) : string := str_map py_lower_char s.

Definition ascii_upper (c : ascii) : ascii :=
  if char_in 97 122 c then ascii_of_nat (nat_of_ascii c - 32) else c.

(** [s.split()]: the maximal runs of non-whitespace characters; [cur] is
    the word being read. *)
Fixpoint split_ws_aux (cur s : string) : list string :=
  match s with
  | EmptyString => if String.eqb cur "" then [] else [cur]
  | String c s' =>
      if py_isspace c
      then if String.eqb cur "" then split_ws_aux "" s'
           else cur :: split_ws_aux "" s'
      else split_ws_aux (cur ++ String c "") s'
  end.

Definition py_split (s : string) : list string := split_ws_aux "" s.

Fixpoint str_concat (l : list string) : string :=
  match l with [] => "" | x :: l' => x ++ str_concat l' end.

(** [s.lstrip(c)] and [s.rstrip(c)] for one character. *)
Fixpoint lstrip_char (c : ascii) (s : string) : string :=
  match s with
  | EmptyString => EmptyString
  | String x s' => if Ascii.eqb x c then lstrip_char c s' else s
  end.

Fixpoint rstrip_char (c : ascii) (s : string) : string :=
  match s with
  | EmptyString => EmptyString
  | String x s' =>
      let r := rstrip_char c s' in
      if String.eqb r "" && Ascii.eqb x c then EmptyString else String x r
  end.

(** ** [livekit_manager.py]: the other routes *)

(** [LIVEKIT_URL.replace("wss://", "https://").replace("ws://", "http://")],
    the [http_url] of the three [..._async] helpers. *)
Definition http_url_of (livekit_url : string) : string :=
  py_replace "ws://" "http://" (py_replace "wss://" "https://" livekit_url).

(** [LIVEKIT_API_KEY[:10] + "..." if LIVEKIT_API_KEY else None] *)
Definition api_key_display (key : string) : pyval :=
  if String.eqb key "" then PNone else PStr (substring 0 10 key ++ "...").

(** [get_livekit_config]: [sdk_installed] is [get_livekit_api()] being a
    module, and [test] the outcome of
    [run_async(test_livekit_connection_async())].  The first component
    tells whether the connection test was run. *)
Definition get_livekit_config (sdk_installed : bool) (url key agents_dir : string)
    (test : outcome bool) : bool * outcome (nat * dict) :=
  let tested := sdk_installed && negb (String.eqb url "") && negb (String.eqb key "") in
  let status :=
    if tested then
      match test with
      | Ok _ => Ok "connected"
      | Raise e => if exn_is_exception e then Ok "error" else Raise e
      end
    else Ok "not_configured" in
  (tested,
   match status with
   | Ok s => Ok (200, [("url", PStr url); ("api_key", api_key_display key);
                       ("status", PStr s); ("agents_dir", PStr agents_dir)])
   | Raise e => Raise e
   end).

Record room_info := {
  rm_sid : string; rm_name : string; rm_num_participants : nat;
  rm_creation_time : nat; rm_metadata : string }.

Definition room_entry (room : room_info) : pyval :=
  PDict [("sid", PStr room.(rm_sid)); ("name", PStr room.(rm_name));
         ("num_participants", PInt room.(rm_num_participants));
         ("creation_time", PInt room.(rm_creation_time));
         ("metadata", PStr room.(rm_metadata))].

(** [list_rooms]: [rooms] is the outcome of
    [run_async(list_livekit_rooms_async())], read as its [.rooms]. *)
Definition list_rooms (sdk_installed : bool) (rooms : outcome (list room_info))
    : outcome (nat * dict) :=
  if negb sdk_installed then Ok (500, [("error", PStr "LiveKit SDK not installed")])
  else
    match rooms with
    | Ok rs => Ok (200, [("rooms", PList (map room_entry rs))])
    | Raise e =>
        if exn_is_exception e
        then Ok (500, [("error", PStr "Failed to list rooms");
                       ("details", PStr (exn_str e))])
        else Raise e
    end.

Record track_info := {
  tk_sid : string; tk_type : nat; tk_name : string; tk_muted : bool;
  tk_source : nat }.

Record participant_info := {
  pt_sid : string; pt_identity : string; pt_name : string; pt_state : nat;
  pt_joined_at : nat; pt_metadata : string; pt_is_publisher : bool;
  pt_tracks : list track_info }.

Definition participant_entry (p : participant_info) : pyval :=
  PDict [("sid", PStr p.(pt_sid)); ("identity", PStr p.(pt_identity));
         ("name", PStr p.(pt_name)); ("state", PInt p.(pt_state));
         ("joined_at", PInt p.(pt_joined_at)); ("metadata", PStr p.(pt_metadata));
         ("is_publisher", PBool p.(pt_is_publisher));
         ("tracks", PList (map (fun t =>
            PDict [("sid", PStr t.(tk_sid)); ("type", PInt t.(tk_type));
                   ("name", PStr t.(tk_name)); ("muted", PBool t.(tk_muted));
                   ("source", PInt t.(tk_source))]) p.(pt_tracks)))].

(** [get_room_participants]: [participants] is the outcome of
    [run_async(get_room_participants_async(room_name))]. *)
Definition get_room_participants (sdk_installed : bool) (room_name : string)
    (participants : outcome (list participant_info)) : outcome (nat * dict) :=
  if negb sdk_installed then Ok (500, [("error", PStr "LiveKit SDK not installed")])
  else
    match participants with
    | Ok ps => Ok (200, [("room", PStr room_name);
                         ("participants", PList (map participant_entry ps))])
    | Raise e =>
        if exn_is_exception e
        then Ok (500, [("error", PStr "Failed to get room participants");
                       ("details", PStr (exn_str e))])
        else Raise e
    end.

(** [generate_token].  The body's [room] and [identity] are strings or
    absent; [metadata] is any JSON value, serialised by [json.dumps]. *)
Record token_body := {
  tb_room : option string; tb_identity : option string; tb_metadata : option pyval }.

(** What [api.AccessToken(...)...with_grants(...)] is built from. *)
Record token_claims := {
  tc_api_key : string; tc_api_secret : string; tc_identity : string;
  tc_name : string; tc_metadata : pyval; tc_room : string;
  tc_room_join : bool; tc_can_publish : bool; tc_can_subscribe : bool;
  tc_can_publish_data : bool }.

(** [to_jwt] is the SDK's signing ([Raise]: import or signing failure);
    [now] is [int(datetime.now().timestamp())]. *)
Definition generate_token (to_jwt : token_claims -> outcome string)
    (url key secret : string) (now : nat) (data : token_body) : outcome (nat * dict) :=
  let room := data.(tb_room) in
  let identity :=
    match data.(tb_identity) with Some i => i | None => "user-" ++ str_of_nat now end in
  let metadata := match data.(tb_metadata) with Some m => m | None => PDict [] end in
  if negb (str_truthy room) then Ok (400, [("error", PStr "room is required")])
  else
    let room := match room with Some r => r | None => "" end in
    match to_jwt {| tc_api_key := key; tc_api_secret := secret;
                    tc_identity := identity; tc_name := identity;
                    tc_metadata := metadata; tc_room := room;
                    tc_room_join := true; tc_can_publish := true;
                    tc_can_subscribe := true; tc_can_publish_data := true |} with
    | Ok jwt => Ok (200, [("token", PStr jwt); ("url", PStr url);
                          ("room", PStr room); ("identity", PStr identity)])
    | Raise e =>
        if exn_is_exception e
        then Ok (500, [("error", PStr "Failed to generate token");
                       ("details", PStr (exn_str e))])
        else Raise e
    end.


Definition newline : ascii := "010"%char.
Definition carriage_return : ascii := "013"%char.

(** No line feed ([\n], the only character the [.] of a Python regular
    expression does not match) in a string. *)
Definition no_newline (s : string) : bool :=
  str_all (fun c => negb (Ascii.eqb c newline)) s.







(** ** [agent_creator.py]: the helpers of [AgentCreator.create_agent] *)

Definition is_id_char (c : ascii) : bool :=
  char_in 97 122 c || char_in 48 57 c || Ascii.eqb c "_".

(** [_generate_agent_id]:
    [re.sub(r'[^a-z0-9_]', '', name.lower().replace(' ', '_')) or 'agent']. *)
Definition generate_agent_id (name : string) : string :=
  let agent_id :=
    str_filter is_id_char
      (py_replace " " "_" (py_lower name)) in
  if String.eqb agent_id "" then "agent" else agent_id.

Definition is_class_char (c : ascii) : bool :=
  char_in 97 122 c || char_in 65 90 c || char_in 48 57 c || Ascii.eqb c "_".

(** [word.capitalize()] for the words of [_generate_class_name], which hold
    only ASCII letters, digits and underscores. *)
Definition capitalize (w : string) : string :=
  match w with
  | EmptyString => EmptyString
  | String c w' => String (ascii_upper c) (py_lower w')
  end.

(** [_generate_class_name] *)
Definition generate_class_name (name : string) : string :=
  let words :=
    py_split (str_filter (fun c => is_class_char c || py_isspace c) name) in
  let class_name :=
    str_concat (map capitalize (filter (fun w => negb (String.eqb w "")) words)) in
  if String.eqb class_name "" then "CustomAgent" else class_name ++ "Agent".

Definition dquote : ascii := "034"%char.
Definition backslash : ascii := "\"%char.

(** [instructions.replace('"', '\\"').replace('\n', '\\n')] in
    [_create_agent_logic]. *)
Definition escape_instructions (instructions : string) : string :=
  py_replace (String newline "") (String backslash "n")
    (py_replace (String dquote "") (String backslash (String dquote "")) instructions).

(** The plugins [agent_logic.py] imports, whatever the configuration:
    [from livekit.plugins import deepgram, openai, silero]. *)
Definition agent_logic_plugin_imports : list string := ["deepgram"; "openai"; "silero"].

Definition type_name (v : pyval) : string :=
  match v with
  | PNone => "NoneType" | PBool _ => "bool" | PInt _ => "int"
  | PStr _ => "str" | PList _ => "list" | PDict _ => "dict"
  end.

Definition attribute_error (v : pyval) (attr : string) : exn :=
  {| exn_is_exception := true;
     exn_str := "'" ++ type_name v ++ "' object has no attribute '" ++ attr ++ "'" |}.

(** [d.get(k, default)] on a value that must be a dict. *)
Definition py_get (v : pyval) (k : string) (default : pyval) : outcome pyval :=
  match v with
  | PDict d => Ok (match dict_get k d with Some x => x | None => default end)
  | _ => Raise (attribute_error v "get")
  end.

Definition pyval_is_str (v : pyval) (s : string) : bool :=
  match v with PStr s' => String.eqb s' s | _ => false end.

(** The plugin list of [_create_requirements]. *)
Definition requirements_plugins (config : dict) : outcome (list string) :=
  match py_get (PDict config) "stt" (PDict []) with
  | Raise e => Raise e
  | Ok stt =>
  match py_get stt "provider" (PStr "deepgram") with
  | Raise e => Raise e
  | Ok stt_provider =>
  match py_get (PDict config) "tts" (PDict []) with
  | Raise e => Raise e
  | Ok tts =>
  match py_get tts "provider" (PStr "openai") with
  | Raise e => Raise e
  | Ok tts_provider =>
      Ok (["openai"; "silero"] ++
          (if pyval_is_str stt_provider "deepgram" then ["deepgram"] else []) ++
          (if pyval_is_str tts_provider "elevenlabs" then ["elevenlabs"] else []) ++
          (if pyval_is_str tts_provider "cartesia" then ["cartesia"] else []))%list
  end end end end.

(** The content of [requirements.txt]. *)
Definition requirements_content (config : dict) : outcome string :=
  match requirements_plugins config with
  | Raise e => Raise e
  | Ok plugins =>
      Ok ("# LiveKit Agents Framework" ++ String newline "" ++
          "livekit-agents[" ++ join "," plugins ++ "]>=1.0.0" ++ String newline "" ++
          "python-dotenv>=1.0.0" ++ String newline "")
  end.

(** Every double quote of a string comes right after a backslash. *)
Fixpoint quotes_escaped (prev : option ascii) (s : string) : bool :=
  match s with
  | EmptyString => true
  | String c s' =>
      (if Ascii.eqb c dquote
       then match prev with Some p => Ascii.eqb p backslash | None => false end
       else true) && quotes_escaped (Some c) s'
  end.

(** ** [magnus_billing.py]: [MagnusBillingClient] construction and requests *)

Record magnus_client := {
  mc_api_url : string; mc_api_key : string; mc_account_id : string;
  mc_timeout : nat }.

Definition value_error (m : string) : exn :=
  {| exn_is_exception := true; exn_str := m |}.

(** [x or os.environ.get(NAME, "")]: [env] is the variable's value, [""]
    when unset. *)
Definition or_env (x : option string) (env : string) : string :=
  match x with Some s => if String.eqb s "" then env else s | None => env end.

Definition magnus_init (api_url api_key account_id : option string)
    (env_url env_key env_account : string) (timeout : nat) : outcome magnus_client :=
  let url := rstrip_char "/" (or_env api_url env_url) in
  let key := or_env api_key env_key in
  let account := or_env account_id env_account in
  if String.eqb url "" then Raise (value_error "Magnus Billing API URL is required")
  else if String.eqb key "" then Raise (value_error "Magnus Billing API key is required")
  else Ok {| mc_api_url := url; mc_api_key := key; mc_account_id := account;
             mc_timeout := timeout |}.

Definition magnus_headers (self : magnus_client) : list (string * string) :=
  [("Authorization", "Bearer " ++ self.(mc_api_key));
   ("Content-Type", "application/json");
   ("Accept", "application/json");
   ("X-Account-ID", self.(mc_account_id))].

Definition request_url (self : magnus_client) (endpoint : string) : string :=
  self.(mc_api_url) ++ "/" ++ lstrip_char "/" endpoint.

Record http_request := {
  rq_method : string; rq_url : string; rq_headers : list (string * string);
  rq_json : option pyval; rq_params : option pyval; rq_timeout : nat }.

Record http_response := {
  hr_ok : bool; hr_status_code : nat; hr_text : string;
  hr_json : option pyval  (** [None]: [response.json()] raises [ValueError] *) }.

(** What [requests.request] does: answer, or raise; [is_request_exception]
    tells whether the exception is a [requests.RequestException]. *)
Inductive transport : Type :=
| Responded (r : http_response)
| Failed (is_request_exception : bool) (e : exn).

(** The exceptions [_make_request] lets escape. *)
Inductive magnus_exn : Type :=
| MagnusAPIError (message_prefix : string) (message_detail : pyval)
    (status_code : option nat) (response : option pyval)
    (** message: [message_prefix + str(message_detail)] *)
| OtherError (e : exn).

Inductive magnus_outcome (A : Type) : Type :=
| MOk (a : A)
| MErr (e : magnus_exn).
Arguments MOk {A} a.
Arguments MErr {A} e.

Definition make_request (self : magnus_client) (send : http_request -> transport)
    (method endpoint : string) (data params : option pyval) : magnus_outcome pyval :=
  let url := request_url self endpoint in
  match send {| rq_method := method; rq_url := url; rq_headers := magnus_headers self;
                rq_json := data; rq_params := params; rq_timeout := self.(mc_timeout) |} with
  | Failed true e => MErr (MagnusAPIError "Request failed: " (PStr (exn_str e)) None None)
  | Failed false e => MErr (OtherError e)
  | Responded response =>
      let response_data :=
        match response.(hr_json) with
        | Some v => v
        | None => PDict [("raw", PStr response.(hr_text))]
        end in
      if response.(hr_ok) then MOk response_data
      else
        match py_get response_data "error" (PDict []) with
        | Raise e => MErr (OtherError e)
        | Ok err =>
            match py_get err "message" (PStr response.(hr_text)) with
            | Raise e => MErr (OtherError e)
            | Ok error_message =>
                MErr (MagnusAPIError "API request failed: " error_message
                        (Some response.(hr_status_code)) (Some response_data))
            end
        end
  end.

(** ** Sample inputs *)

Definition configured : manager :=
  {| livekit_url := Some "wss://lk.example.com";
     livekit_api_key := Some "key";
     livekit_api_secret := Some "secret" |}.

(** The API secret is unset and the key is empty. *)
Definition unconfigured : manager :=
  {| livekit_url := Some "wss://lk.example.com";
     livekit_api_key := Some "";
     livekit_api_secret := None |}.

Definition sample_uuid : string := "3f2b9c1e-7a4d-4e2b-9c1a-0b5d6e7f8a9b".

Definition remote_error (m : string) : exn :=
  {| exn_is_exception := true; exn_str := m |}.

(** A server that accepts everything. *)
Definition accepting : remote :=
  {| create_sip_inbound_trunk := fun t =>
       Ok {| tr_sip_trunk_id := "ST_in"; tr_numbers := t.(it_numbers) |};
     create_sip_outbound_trunk := fun t =>
       Ok {| tr_sip_trunk_id := "ST_out"; tr_numbers := t.(ot_numbers) |};
     create_sip_dispatch_rule := fun _ => Ok "SDR_1";
     list_sip_inbound_trunk := Ok [];
     list_sip_outbound_trunk := Ok [];
     list_sip_dispatch_rule := Ok [];
     delete_sip_trunk := fun _ => Ok tt;
     delete_sip_dispatch_rule := fun _ => Ok tt;
     create_room := fun _ => Ok tt;
     create_dispatch := fun _ => Ok tt;
     create_sip_participant := fun _ => Ok "PA_1" |}.

(** The same server, except that the SIP trunk of the call does not exist. *)
Definition unknown_trunk : remote :=
  {| create_sip_inbound_trunk := accepting.(create_sip_inbound_trunk);
     create_sip_outbound_trunk := accepting.(create_sip_outbound_trunk);
     create_sip_dispatch_rule := accepting.(create_sip_dispatch_rule);
     list_sip_inbound_trunk := accepting.(list_sip_inbound_trunk);
     list_sip_outbound_trunk := accepting.(list_sip_outbound_trunk);
     list_sip_dispatch_rule := accepting.(list_sip_dispatch_rule);
     delete_sip_trunk := accepting.(delete_sip_trunk);
     delete_sip_dispatch_rule := accepting.(delete_sip_dispatch_rule);
     create_room := accepting.(create_room);
     create_dispatch := accepting.(create_dispatch);
     create_sip_participant := fun _ => Raise (remote_error "trunk not found") |}.

(** A server that refuses every request. *)
Definition unreachable : remote :=
  let e := remote_error "connection refused" in
  {| create_sip_inbound_trunk := fun _ => Raise e;
     create_sip_outbound_trunk := fun _ => Raise e;
     create_sip_dispatch_rule := fun _ => Raise e;
     list_sip_inbound_trunk := Raise e;
     list_sip_outbound_trunk := Raise e;
     list_sip_dispatch_rule := Raise e;
     delete_sip_trunk := fun _ => Raise e;
     delete_sip_dispatch_rule := fun _ => Raise e;
     create_room := fun _ => Raise e;
     create_dispatch := fun _ => Raise e;
     create_sip_participant := fun _ => Raise e |}.

(** A Magnus client and a server answering 404 with an error object. *)
Definition sample_magnus : magnus_client :=
  {| mc_api_url := "https://billing.example.com/api"; mc_api_key := "mk_1";
     mc_account_id := "acct_7"; mc_timeout := 30 |}.


Example sample_uuid_wf : uuid_str_wf sample_uuid = true.
Proof. vm_compute. reflexivity. Qed.

Example str_of_nat_samples :
  str_of_nat 0 = "0" /\ str_of_nat 1 = "1" /\ str_of_nat 10 = "10" /\ str_of_nat 507 = "507".
Proof. vm_compute. repeat split. Qed.

Example rule_name_three :
  rule_name_of "sales" (Some ["+15551230000"; "+15559998888"; "+15551112222"])
  = "Agent: sales -> +15551230000, +15559998888 +1".
Proof. vm_compute. reflexivity. Qed.

Example room_prefix_sample :
  room_prefix_of (Some ["+1 555-123-0000"]) = "sip-15551230000__".
Proof. vm_compute. reflexivity. Qed.

Example outbound_call_sample :
  create_outbound_call configured accepting sample_uuid "+15550001111"
    "+15552223333" "ST_x" "agent" (Some "cfg9") None []
  = ([EvOpen; EvCall "create_room"; EvCall "create_dispatch";
      EvCall "create_sip_participant"; EvClose],
     Ok [("success", PBool true); ("room_name", PStr "outbound-3f2b9c1e-cfg9");
         ("call_id", PStr "3f2b9c1e"); ("participant_id", PStr "PA_1");
         ("error", PNone)]).
Proof. vm_compute. reflexivity. Qed.

(** ** Frame lemmas: the client events of an operation *)

(** A computation that only appends remote-method calls to the trace. *)
Definition only_calls {A} (m : M A) : Prop :=
  forall t, exists ms, fst (m t) = (t ++ map EvCall ms)%list.

Lemma only_calls_ret {A} (a : A) : only_calls (ret a).
Proof. intros t; exists []; simpl; now rewrite app_nil_r. Qed.

Lemma only_calls_remote_call {A} (meth : string) (o : outcome A) :
  only_calls (remote_call meth o).
Proof. intros t; exists [meth]; reflexivity. Qed.

Lemma only_calls_bind {A B} (m : M A) (k : A -> M B) :
  only_calls m -> (forall a, only_calls (k a)) -> only_calls (bind m k).
Proof.
  intros Hm Hk t. unfold bind. destruct (Hm t) as [ms Hms].
  destruct (m t) as [t1 [a|e]]; simpl in Hms; subst t1.
  - destruct (Hk a (t ++ map EvCall ms)%list) as [ms' H'].
    exists (ms ++ ms')%list. rewrite H', map_app, app_assoc. reflexivity.
  - exists ms. reflexivity.
Qed.

Lemma only_calls_if {A} (b : bool) (m1 m2 : M A) :
  only_calls m1 -> only_calls m2 -> only_calls (if b then m1 else m2).
Proof. destruct b; auto. Qed.

Lemma with_client_trace (body : M dict) (h : string -> dict) (t : trace) :
  only_calls body ->
  exists ms, fst (with_client body h t) = (t ++ EvOpen :: map EvCall ms ++ [EvClose])%list.
Proof.
  intros Hb. unfold with_client. destruct (Hb (t ++ [EvOpen])%list) as [ms H].
  destruct (body (t ++ [EvOpen])%list) as [t1 r]. simpl in H. subst t1.
  exists ms. simpl. rewrite <- !app_assoc. reflexivity.
Qed.

Create HintDb frame.
#[export] Hint Resolve only_calls_ret only_calls_remote_call only_calls_if : frame.

Ltac only_calls_body :=
  cbv zeta;
  repeat (apply only_calls_bind; [ | intro ]);
  auto with frame.

Lemma check_credentials_ok (self : manager) :
  creds_ok self = true -> check_credentials self = None.
Proof. unfold creds_ok, check_credentials. intros ->. reflexivity. Qed.

Lemma body_get_has (k v : string) (data : json_body) :
  body_get k data = Some v -> body_has k data = true.
Proof.
  unfold body_get, body_has. induction data as [|[k' v'] data IH]; [discriminate|].
  cbn [find existsb fst]. destruct (String.eqb k' k); [reflexivity|]. exact IH.
Qed.

Lemma check_credentials_missing (self : manager) :
  creds_ok self = false ->
  check_credentials self =
    Some [("success", PBool false); ("error", PStr "LiveKit credentials not configured")].
Proof. unfold creds_ok, check_credentials. intros ->. reflexivity. Qed.

(** ** Result-envelope lemmas *)

(** Every dictionary an operation returns satisfies [P]. *)
Definition returns (P : dict -> Prop) (m : M dict) : Prop :=
  forall t t' d, m t = (t', Ok d) -> P d.

Lemma returns_ret (P : dict -> Prop) (d : dict) : P d -> returns P (ret d).
Proof. intros HP t t' d' H. inversion H; subst; assumption. Qed.

Lemma returns_bind {A} (P : dict -> Prop) (m : M A) (k : A -> M dict) :
  (forall a, returns P (k a)) -> returns P (bind m k).
Proof.
  intros Hk t t' d. unfold bind.
  destruct (m t) as [t1 [a|e]]; [apply Hk | discriminate].
Qed.

Lemma returns_with_client (P : dict -> Prop) (body : M dict) (h : string -> dict) :
  returns P body -> (forall e, P (h e)) -> returns P (with_client body h).
Proof.
  intros Hb Hh t t' d. unfold with_client.
  destruct (body (t ++ [EvOpen])%list) as [t1 [d1|[[|] m]]] eqn:E; simpl;
    intros H; inversion H; subst.
  - eapply Hb; eassumption.
  - apply Hh.
Qed.

Lemma returns_gated (P : dict -> Prop) (self : manager) (extra : dict) (k : M dict) :
  (forall err, check_credentials self = Some err -> P (dict_merge err extra)) ->
  returns P k -> returns P (gated self extra k).
Proof.
  unfold gated. destruct (check_credentials self) as [err|] eqn:E; intros Hg Hk.
  - apply returns_ret, Hg; reflexivity.
  - exact Hk.
Qed.

(** The shape of the result dictionaries. *)
Definition envelope (d : dict) : Prop :=
  (exists b, dict_get "success" d = Some (PBool b)) /\
  (dict_get "error" d = Some PNone <-> dict_get "success" d = Some (PBool true)) /\
  (dict_get "success" d = Some (PBool false) ->
     exists s, dict_get "error" d = Some (PStr s)).

Ltac envelope_concrete :=
  unfold envelope; cbn;
  split; [eexists; reflexivity |];
  split; [split; intro; congruence | intros Hs; (discriminate Hs || (eexists; reflexivity))].

Ltac envelope_body :=
  cbv zeta;
  repeat (apply returns_bind; intro);
  apply returns_ret; envelope_concrete.

Lemma dict_get_set_other (k k' : string) (v : pyval) (d : dict) :
  k' <> k -> dict_get k (dict_set k' v d) = dict_get k d.
Proof.
  intros Hne. induction d as [|[k0 v0] d IH]; simpl.
  - destruct (String.eqb k k') eqn:E; [apply String.eqb_eq in E; congruence | reflexivity].
  - destruct (String.eqb k' k0) eqn:E1; simpl.
    + apply String.eqb_eq in E1; subst k0.
      destruct (String.eqb k k') eqn:E2; [apply String.eqb_eq in E2; congruence | reflexivity].
    + destruct (String.eqb k k0); [reflexivity | exact IH].
Qed.

Lemma gate_envelope (self : manager) (extra : dict) :
  Forall (fun kv => fst kv <> "success" /\ fst kv <> "error") extra ->
  forall err, check_credentials self = Some err -> envelope (dict_merge err extra).
Proof.
  intros Hx err. unfold check_credentials.
  destruct (forallb _ _); intros H; inversion H; subst; clear H.
  unfold dict_merge.
  assert (Hgen : forall acc,
    dict_get "success" acc = Some (PBool false) ->
    dict_get "error" acc = Some (PStr "LiveKit credentials not configured") ->
    let r := fold_left (fun acc kv => dict_set (fst kv) (snd kv) acc) extra acc in
    dict_get "success" r = Some (PBool false) /\
    dict_get "error" r = Some (PStr "LiveKit credentials not configured")).
  { induction Hx as [|[k v] l [Hk1 Hk2] _ IH]; intros acc Hs He; simpl; auto.
    apply IH; rewrite dict_get_set_other; auto. }
  destruct (Hgen [("success", PBool false);
                  ("error", PStr "LiveKit credentials not configured")]
               eq_refl eq_refl) as [Hs He]. cbv zeta in Hs, He.
  unfold envelope. rewrite Hs, He. split; [eexists; reflexivity|].
  split; [split; intro; congruence | intros; eexists; reflexivity].
Qed.

(** ** Inversion lemmas for a returned dictionary *)

Lemma bind_ok_inv {A B} (m : M A) (k : A -> M B) (t t' : trace) (b : B) :
  bind m k t = (t', Ok b) -> exists t1 a, m t = (t1, Ok a) /\ k a t1 = (t', Ok b).
Proof.
  unfold bind. destruct (m t) as [t1 [a|e]]; intros H; [eauto | discriminate].
Qed.

Lemma remote_call_ok_inv {A} (meth : string) (o : outcome A) (t t' : trace) (a : A) :
  remote_call meth o t = (t', Ok a) -> o = Ok a.
Proof. unfold remote_call. intros H. inversion H. reflexivity. Qed.

Lemma with_client_ok_inv (body : M dict) (h : string -> dict) (t t' : trace) (d : dict) :
  with_client body h t = (t', Ok d) ->
  (exists t1, body (t ++ [EvOpen])%list = (t1, Ok d)) \/
  (exists t1 e, body (t ++ [EvOpen])%list = (t1, Raise e) /\
                exn_is_exception e = true /\ d = h (exn_str e)).
Proof.
  unfold with_client.
  destruct (body (t ++ [EvOpen])%list) as [t1 [d1|[[|] m]]] eqn:E;
    simpl; intros H; inversion H; subst.
  - left. eauto.
  - right. exists t1, {| exn_is_exception := true; exn_str := m |}. auto.
Qed.

Lemma call_id_hex (u : string) :
  uuid_str_wf u = true -> String.length (call_id_of u) = 8 /\ all_hex (call_id_of u) = true.
Proof.
  unfold uuid_str_wf, call_id_of, all_hex. intros H.
  do 8 (destruct u as [|? u]; [cbn in H; rewrite ?andb_false_r in H; discriminate|]).
  destruct u as [|? u]; simpl in H |- *; split; try reflexivity;
  repeat match goal with Hc : _ && _ = true |- _ => apply andb_prop in Hc; destruct Hc end;
  repeat match goal with Hc : ?x = true |- context [?x] => rewrite Hc end;
  reflexivity.
Qed.

Lemma with_client_first_call {A} (meth : string) (o : outcome A)
    (k : A -> M dict) (h : string -> dict) (t : trace) :
  (forall a, only_calls (k a)) ->
  exists rest, fst (with_client (bind (remote_call meth o) k) h t)
               = (t ++ EvOpen :: EvCall meth :: rest)%list.
Proof.
  intros Hk. unfold with_client, bind at 1, remote_call.
  destruct o as [a|e].
  - destruct (Hk a ((t ++ [EvOpen]) ++ [EvCall meth])%list) as [ms H].
    destruct (k a ((t ++ [EvOpen]) ++ [EvCall meth])%list) as [t1 r].
    simpl in H. subst t1. simpl. eexists. rewrite <- !app_assoc. reflexivity.
  - simpl. eexists. rewrite <- !app_assoc. reflexivity.
Qed.

Lemma strip_phone_digits (p : string) :
  remove_char " " (remove_char "-" (remove_char "+" p)) = strip_chars_spec p.
Proof.
  unfold strip_chars_spec.
  induction p as [|c p IH]; [reflexivity|].
  cbn [remove_char list_ascii_of_string filter existsb].
  destruct (Ascii.eqb "+" c) eqn:E1;
    cbn [remove_char orb negb string_of_list_ascii]; [exact IH|].
  destruct (Ascii.eqb "-" c) eqn:E2;
    cbn [remove_char orb negb string_of_list_ascii]; [exact IH|].
  destruct (Ascii.eqb " " c) eqn:E3;
    cbn [remove_char orb negb string_of_list_ascii]; [exact IH|].
  rewrite IH. reflexivity.
Qed.

Lemma str_append_assoc (a b c : string) : (a ++ b) ++ c = a ++ (b ++ c).
Proof. induction a as [|x a IH]; simpl; [reflexivity | now rewrite IH]. Qed.

Ltac unfold_ops :=
  cbn [run_op];
  unfold create_inbound_trunk, create_outbound_trunk, create_dispatch_rule,
    list_inbound_trunks, list_outbound_trunks, list_dispatch_rules,
    delete_inbound_trunk, delete_dispatch_rule, create_outbound_call.

(** ** Claims *)

(** C3: when any of the three credential fields is unset or empty, every
    public operation of [LiveKitTelephonyManager] returns
    [success = False] with the error ['LiveKit credentials not configured']
    and leaves the trace untouched: no client is opened and no remote
    method is called. *)
Theorem credentials_gate_no_network (self : manager) (rem : remote)
    (o : public_op) (t : trace) (Hmissing : creds_ok self = false) :
  exists d, run_op self rem o t = (t, Ok d) /\
    dict_get "success" d = Some (PBool false) /\
    dict_get "error" d = Some (PStr "LiveKit credentials not configured").
Proof.
  destruct o; unfold_ops; unfold gated;
    rewrite (check_credentials_missing self Hmissing);
    eexists; (split; [reflexivity | cbn; split; reflexivity]).
Qed.

(** C9: past the credential gate, every public operation opens its LiveKit
    client first and closes it last, whatever the server answers: on a
    normal return, on an exception caught by [except Exception] and on an
    exception that propagates.  In between only remote methods are called. *)
Theorem client_closed_on_every_exit (self : manager) (rem : remote)
    (o : public_op) (t : trace) (Hok : creds_ok self = true) :
  exists ms, fst (run_op self rem o t) = (t ++ EvOpen :: map EvCall ms ++ [EvClose])%list.
Proof.
  destruct o; unfold_ops; unfold gated; rewrite (check_credentials_ok self Hok);
    apply with_client_trace; only_calls_body.
Qed.

(** C10: every dictionary returned by a public operation has a boolean
    ['success'] key and an ['error'] key; ['error'] is [None] exactly when
    ['success'] is [True], and it is a string whenever ['success'] is
    [False] (credential-gate path included). *)
Theorem result_envelope (self : manager) (rem : remote) (o : public_op)
    (t t' : trace) (d : dict) (Hret : run_op self rem o t = (t', Ok d)) :
  envelope d.
Proof.
  revert t t' d Hret. change (returns envelope (run_op self rem o)).
  destruct o; unfold_ops;
    (apply returns_gated;
     [ apply gate_envelope;
       repeat (apply Forall_cons; [split; discriminate |]); apply Forall_nil
     | apply returns_with_client; [envelope_body | intros; envelope_concrete] ]).
Qed.

(** C1: with credentials configured, [create_outbound_call] returns
    [success = True] only when the SIP participant of step 3 was created;
    its dictionary then holds [room_name], [call_id] and the participant
    id.  [call_id] is the first 8 characters of the [uuid4] drawn for this
    call, hence 8 hexadecimal digits, and [room_name] is
    [outbound-{call_id}-{agent_config_id}] when a non-empty config id is
    given and [outbound-{call_id}] otherwise. *)
Theorem outbound_call_success_contract (self : manager) (rem : remote)
    (uuid4 from_number to_number trunk_id agent_name : string)
    (agent_config_id organization_id : option string) (t t' : trace) (d : dict)
    (Hok : creds_ok self = true) (Hwf : uuid_str_wf uuid4 = true)
    (Hrun : create_outbound_call self rem uuid4 from_number to_number trunk_id
              agent_name agent_config_id organization_id t = (t', Ok d))
    (Hsucc : success_of d = true) :
  let call_id := call_id_of uuid4 in
  let room_name := outbound_room_name call_id agent_config_id in
  String.length call_id = 8 /\ all_hex call_id = true /\
  (forall c, agent_config_id = Some c -> c <> "" ->
     room_name = "outbound-" ++ call_id ++ "-" ++ c) /\
  (str_truthy agent_config_id = false -> room_name = "outbound-" ++ call_id) /\
  exists participant_id,
    rem.(create_sip_participant)
      (sip_request_of from_number to_number trunk_id room_name call_id)
      = Ok participant_id /\
    d = [("success", PBool true); ("room_name", PStr room_name);
         ("call_id", PStr call_id); ("participant_id", PStr participant_id);
         ("error", PNone)].
Proof.
  intros call_id room_name.
  destruct (call_id_hex uuid4 Hwf) as [Hl Hh].
  split; [exact Hl|]. split; [exact Hh|].
  split.
  { intros c -> Hc. subst room_name. unfold outbound_room_name.
    apply String.eqb_neq in Hc. rewrite Hc. reflexivity. }
  split.
  { subst room_name. unfold outbound_room_name.
    destruct agent_config_id as [c|]; simpl; [|reflexivity].
    destruct (String.eqb c "") eqn:E; simpl; [reflexivity | discriminate]. }
  unfold create_outbound_call, gated in Hrun.
  rewrite (check_credentials_ok self Hok) in Hrun.
  apply with_client_ok_inv in Hrun as [[t1 Hb] | [t1 [e [Hb [He Hd]]]]].
  2: { subst d. discriminate Hsucc. }
  cbv zeta in Hb.
  apply bind_ok_inv in Hb as [t2 [u1 [H1 Hb]]].
  apply bind_ok_inv in Hb as [t3 [u2 [H2 Hb]]].
  apply bind_ok_inv in Hb as [t4 [pid [H3 Hb]]].
  apply remote_call_ok_inv in H3.
  unfold ret in Hb. inversion Hb; subst.
  exists pid. split; [exact H3 | reflexivity].
Qed.

(** C2 (counterexample): the room of the call is created, participant
    creation then fails on an unknown trunk, and the failure dictionary
    carries no step and [room_name = None] instead of the created room. *)
Lemma outbound_failure_omits_room :
  create_outbound_call configured unknown_trunk sample_uuid "+15550001111"
    "+15552223333" "ST_missing" "agent" None None []
  = ([EvOpen; EvCall "create_room"; EvCall "create_dispatch";
      EvCall "create_sip_participant"; EvClose],
     Ok [("success", PBool false); ("room_name", PNone); ("call_id", PNone);
         ("error", PStr "trunk not found")]) /\
  unknown_trunk.(create_room) "outbound-3f2b9c1e" = Ok tt /\
  dict_get "step" [("success", PBool false); ("room_name", PNone);
                   ("call_id", PNone); ("error", PStr "trunk not found")] = None /\
  dict_get "room_name" [("success", PBool false); ("room_name", PNone);
                        ("call_id", PNone); ("error", PStr "trunk not found")]
    <> Some (PStr "outbound-3f2b9c1e").
Proof. vm_compute. repeat split; discriminate. Qed.

(** C2 (amended): with credentials configured, when the room is created
    and then agent binding (step 2) or participant creation (step 3) raises
    an [Exception] [e], [create_outbound_call] returns
    [{'success': False, 'room_name': None, 'call_id': None, 'error': str(e)}]
    (no failing step, no id of the created room), and the only remote calls
    it made are [create_room] followed by creation calls: the room is not
    deleted. *)
Theorem outbound_partial_failure_result (self : manager) (rem : remote)
    (uuid4 from_number to_number trunk_id agent_name : string)
    (agent_config_id organization_id : option string) (t : trace) (e : exn)
    (Hok : creds_ok self = true)
    (Hroom : rem.(create_room)
               (outbound_room_name (call_id_of uuid4) agent_config_id) = Ok tt)
    (Hexc : exn_is_exception e = true)
    (Hfail :
      (String.eqb agent_name "" = false /\
       rem.(create_dispatch)
         (dispatch_request_of agent_name
            (outbound_room_name (call_id_of uuid4) agent_config_id)
            agent_config_id organization_id) = Raise e) \/
      ((String.eqb agent_name "" = true \/
        rem.(create_dispatch)
          (dispatch_request_of agent_name
             (outbound_room_name (call_id_of uuid4) agent_config_id)
             agent_config_id organization_id) = Ok tt) /\
       rem.(create_sip_participant)
         (sip_request_of from_number to_number trunk_id
            (outbound_room_name (call_id_of uuid4) agent_config_id)
            (call_id_of uuid4)) = Raise e)) :
  exists ms,
    create_outbound_call self rem uuid4 from_number to_number trunk_id
      agent_name agent_config_id organization_id t
    = ((t ++ EvOpen :: EvCall "create_room" :: map EvCall ms ++ [EvClose])%list,
       Ok [("success", PBool false); ("room_name", PNone); ("call_id", PNone);
           ("error", PStr (exn_str e))]) /\
    (forall m, In m ms -> m = "create_dispatch" \/ m = "create_sip_participant").
Proof.
  unfold create_outbound_call, gated. rewrite (check_credentials_ok self Hok).
  unfold with_client, bind, remote_call, ret. cbv zeta. rewrite Hroom.
  destruct Hfail as [[Ha Hd] | [[Ha | Hd] Hp]].
  - rewrite Ha, Hd. simpl. rewrite Hexc.
    exists ["create_dispatch"]. split.
    + rewrite <- !app_assoc. reflexivity.
    + intros m [<-|[]]; auto.
  - rewrite Ha, Hp. simpl. rewrite Hexc.
    exists ["create_sip_participant"]. split.
    + rewrite <- !app_assoc. reflexivity.
    + intros m [<-|[]]; auto.
  - rewrite Hd, Hp. destruct (String.eqb agent_name ""); simpl; rewrite Hexc.
    + exists ["create_sip_participant"]. split.
      * rewrite <- !app_assoc. reflexivity.
      * intros m [<-|[]]; auto.
    + exists ["create_dispatch"; "create_sip_participant"]. split.
      * rewrite <- !app_assoc. reflexivity.
      * intros m [<-|[<-|[]]]; auto.
Qed.

(** C4 (counterexample): a coroutine still running 31 seconds after
    submission makes [run_async] raise [concurrent.futures.TimeoutError]
    to its caller instead of returning a failure value. *)
Lemma run_async_late_raises :
  run_async (Some 31) (Ok [("success", PBool true); ("error", PNone)])
  = Raise futures_timeout_error.
Proof. reflexivity. Qed.

(** C4 (amended): [run_async] runs the coroutine on a [ThreadPoolExecutor]
    with [max_workers=4] and waits with [future.result(timeout=30)]; when
    the coroutine has not finished 30 seconds after submission the caller
    gets the exception [concurrent.futures.TimeoutError] raised (a subclass
    of [Exception]), not a returned value; a run finished within the
    deadline yields its own result or exception. *)
Theorem run_async_deadline (A : Type) (o : outcome A) (finish : option nat)
    (Hlate : forall t, finish = Some t -> run_async_timeout < t) :
  executor_max_workers = 4 /\ run_async_timeout = 30 /\
  run_async finish o = Raise futures_timeout_error /\
  exn_is_exception futures_timeout_error = true /\
  (forall t, t <= run_async_timeout -> run_async (Some t) o = o).
Proof.
  split; [reflexivity|]. split; [reflexivity|].
  split; [| split; [reflexivity|]].
  - unfold run_async. destruct finish as [t|]; [|reflexivity].
    specialize (Hlate t eq_refl).
    destruct (Nat.leb t run_async_timeout) eqn:E; [|reflexivity].
    apply Nat.leb_le in E. lia.
  - intros t Ht. unfold run_async. apply Nat.leb_le in Ht. rewrite Ht. reflexivity.
Qed.

(** C5 (counterexample): with three numbers the rule name ends in [" +1"]
    and does not contain ["+1 more"]. *)
Lemma dispatch_rule_name_no_more :
  (dispatch_info_of "sales" None
     (Some ["+15551230000"; "+15559998888"; "+15551112222"]) None None).(dr_name)
  = "Agent: sales -> +15551230000, +15559998888 +1" /\
  String.index 0 "+1 more" "Agent: sales -> +15551230000, +15559998888 +1" = None.
Proof. vm_compute. split; reflexivity. Qed.

(** C5 (amended): the display name of the rule sent by
    [create_dispatch_rule] is ["Agent: {agent_name} -> {label}"], where the
    label is ["All"] when [phone_numbers] is empty or absent, otherwise the
    first one or two numbers joined by [", "], followed by
    [" +{count-2}"] (without the word "more") when more than two are
    given. *)
Theorem dispatch_rule_name (agent_name : string)
    (trunk_ids phone_numbers : option (list string))
    (user_id organization_id : option string) :
  (dispatch_info_of agent_name trunk_ids phone_numbers user_id organization_id).(dr_name)
  = "Agent: " ++ agent_name ++ " -> " ++
    match phone_numbers with
    | Some [a] => a
    | Some [a; b] => a ++ ", " ++ b
    | Some (a :: b :: _ :: rest) =>
        a ++ ", " ++ b ++ " +" ++ str_of_nat (S (length rest))
    | _ => "All"
    end.
Proof.
  destruct phone_numbers as [[|a [|b [|c rest]]]|]; try reflexivity.
  cbn [dispatch_info_of dr_name]. unfold rule_name_of, numbers_str_of.
  cbn [list_truthy length firstn join andb].
  replace (Nat.ltb 2 (S (S (S (length rest))))) with true
    by (symmetry; apply Nat.ltb_lt; lia).
  replace (S (S (S (length rest))) - 2) with (S (length rest)) by lia.
  rewrite !str_append_assoc. reflexivity.
Qed.

(** C6 (counterexample): a numbers list whose first entry is the empty
    string yields ["sip-unknown__"], not ["sip-" ++ strip("") ++ "__"]. *)
Lemma room_prefix_empty_first_entry :
  (dispatch_info_of "sales" None (Some [""]) None None).(dr_room_prefix)
  = "sip-unknown__" /\
  "sip-unknown__" <> "sip-" ++ strip_chars_spec "" ++ "__".
Proof. vm_compute. split; [reflexivity | discriminate]. Qed.

(** C6 (amended): the room prefix of the rule sent by [create_dispatch_rule]
    depends only on the first entry of [phone_numbers]: when that entry is
    a non-empty string it is ["sip-{digits}__"] with [+], [-] and spaces
    stripped from it; when the list is empty or absent, or its first entry
    is empty, it is ["sip-unknown__"], so all such rules share one
    prefix. *)
Theorem dispatch_rule_room_prefix (agent_name : string)
    (trunk_ids phone_numbers : option (list string))
    (user_id organization_id : option string) :
  (dispatch_info_of agent_name trunk_ids phone_numbers user_id organization_id).(dr_room_prefix)
  = match phone_numbers with
    | Some (p :: _) =>
        if String.eqb p "" then "sip-unknown__"
        else "sip-" ++ strip_chars_spec p ++ "__"
    | _ => "sip-unknown__"
    end.
Proof.
  destruct phone_numbers as [[|p rest]|]; try reflexivity.
  cbn [dispatch_info_of dr_room_prefix]. unfold room_prefix_of, first_phone_number.
  destruct (String.eqb p ""); [reflexivity|].
  rewrite strip_phone_digits. reflexivity.
Qed.

(** C7 (counterexample): a request whose [from_number] and [agent_name] are
    present but empty is not rejected: the handler calls
    [create_outbound_call], which creates the room and the SIP participant
    and reports success. *)
Lemma outbound_call_empty_fields_reach_network :
  make_outbound_call configured accepting sample_uuid
    [("from_number", ""); ("to_number", "+15552223333");
     ("trunk_id", "ST_x"); ("agent_name", "")] []
  = ([EvOpen; EvCall "create_room"; EvCall "create_sip_participant"; EvClose],
     Ok (201, [("success", PBool true); ("room_name", PStr "outbound-3f2b9c1e");
               ("call_id", PStr "3f2b9c1e"); ("participant_id", PStr "PA_1");
               ("error", PNone)])).
Proof. vm_compute. reflexivity. Qed.

(** C7 (amended): [create_outbound_call] validates none of its fields: with
    credentials configured it always opens the client and calls
    [create_room] first, whatever the field values, and an empty
    [agent_name] only skips the agent binding: against a run with an agent
    whose binding succeeds, it gives the same result and the same client
    events but the [create_dispatch] call.  Only the HTTP handler
    [make_outbound_call] rejects a body lacking one of the keys
    [from_number], [to_number], [trunk_id], [agent_name], with status 400
    and no client event; when the four keys are present, their values,
    empty or not, are passed to [create_outbound_call] unchanged, whose
    run and result the handler returns. *)
Theorem outbound_call_input_checks (self : manager) (rem : remote) (uuid4 : string)
    (Hok : creds_ok self = true) :
  (forall data field t,
     first_missing required_fields data = Some field ->
     make_outbound_call self rem uuid4 data t
     = (t, Ok (400, [("error", PStr (field ++ " required"))]))) /\
  (forall data t from_number to_number trunk_id agent_name,
     body_get "from_number" data = Some from_number ->
     body_get "to_number" data = Some to_number ->
     body_get "trunk_id" data = Some trunk_id ->
     body_get "agent_name" data = Some agent_name ->
     let run := create_outbound_call self rem uuid4 from_number to_number trunk_id
                  agent_name (body_get "agent_config_id" data)
                  (body_get "organization_id" data) t in
     fst (make_outbound_call self rem uuid4 data t) = fst run /\
     (forall result, snd run = Ok result ->
        snd (make_outbound_call self rem uuid4 data t)
        = Ok (if success_of result then 201 else 500, result))) /\
  (forall from_number to_number trunk_id agent_name agent_config_id
          organization_id t,
     exists rest,
       fst (create_outbound_call self rem uuid4 from_number to_number trunk_id
              agent_name agent_config_id organization_id t)
       = (t ++ EvOpen :: EvCall "create_room" :: rest)%list) /\
  (forall from_number to_number trunk_id agent_name agent_config_id
          organization_id t,
     agent_name <> "" ->
     let room := outbound_room_name (call_id_of uuid4) agent_config_id in
     rem.(create_dispatch)
       (dispatch_request_of agent_name room agent_config_id organization_id) = Ok tt ->
     let with_agent := create_outbound_call self rem uuid4 from_number to_number
                         trunk_id agent_name agent_config_id organization_id t in
     let without := create_outbound_call self rem uuid4 from_number to_number
                      trunk_id "" agent_config_id organization_id t in
     snd with_agent = snd without /\
     (rem.(create_room) room = Ok tt ->
      exists rest,
        fst without = (t ++ EvOpen :: EvCall "create_room" :: rest)%list /\
        fst with_agent
        = (t ++ EvOpen :: EvCall "create_room" :: EvCall "create_dispatch" :: rest)%list) /\
     (forall e, rem.(create_room) room = Raise e -> with_agent = without)).
Proof.
  split; [|split; [|split]].
  - intros data field t H. unfold make_outbound_call. rewrite H. reflexivity.
  - intros data t f o k a Hf Ho Hk Ha run.
    assert (Hnone : first_missing required_fields data = None).
    { unfold first_missing, required_fields.
      rewrite (body_get_has _ _ _ Hf), (body_get_has _ _ _ Ho),
        (body_get_has _ _ _ Hk), (body_get_has _ _ _ Ha). reflexivity. }
    unfold make_outbound_call. rewrite Hnone. unfold body_item.
    rewrite Hf, Ho, Hk, Ha. fold run.
    destruct run as [t' [result|e]]; cbn [fst snd].
    + split; [reflexivity|]. intros r Hr. inversion Hr. reflexivity.
    + split; [destruct (exn_is_exception e); reflexivity|]. discriminate.
  - intros. unfold create_outbound_call, gated.
    rewrite (check_credentials_ok self Hok). cbv zeta.
    apply with_client_first_call. intros. only_calls_body.
  - intros f o k a c g t Ha room Hd with_agent without.
    subst with_agent without.
    unfold create_outbound_call, gated. rewrite (check_credentials_ok self Hok).
    cbv zeta. fold room.
    assert (Hneg : negb (String.eqb a "") = true)
      by (apply negb_true_iff, String.eqb_neq; exact Ha).
    rewrite Hneg. cbn [String.eqb negb].
    unfold with_client, bind, remote_call, ret.
    destruct (rem.(create_room) room) as [[]|e] eqn:Hr.
    + rewrite Hd.
      destruct (rem.(create_sip_participant)
                  (sip_request_of f o k room (call_id_of uuid4))) as [pid|e].
      * split; [reflexivity|]. split; [|discriminate].
        intros _. eexists. split; rewrite <- !app_assoc; reflexivity.
      * split; [reflexivity|]. split; [|discriminate].
        intros _. eexists. split; rewrite <- !app_assoc; reflexivity.
    + split; [reflexivity|]. split; [discriminate|]. intros; reflexivity.
Qed.

(** C8 (counterexample): an empty numbers list is sent to the server, which
    here accepts it, and the operation reports success. *)
Lemma create_trunks_accept_empty_numbers :
  create_inbound_trunk configured accepting [] None None []
  = ([EvOpen; EvCall "create_sip_inbound_trunk"; EvClose],
     Ok [("success", PBool true); ("trunk_id", PStr "ST_in");
         ("numbers", PList []); ("error", PNone)]) /\
  create_outbound_trunk configured accepting "user" "pw" "sip.example.com" []
    None None 5060 []
  = ([EvOpen; EvCall "create_sip_outbound_trunk"; EvClose],
     Ok [("success", PBool true); ("trunk_id", PStr "ST_out");
         ("numbers", PList []); ("error", PNone)]).
Proof. vm_compute. split; reflexivity. Qed.

(** C8 (amended): there is no local emptiness check on the numbers: with
    credentials configured, [create_inbound_trunk] and
    [create_outbound_trunk] called with an empty list send one creation
    request whose [numbers] is empty, and return what the server answers:
    success with its trunk id, or failure with [str(e)] for an
    [Exception]. *)
Theorem create_trunks_empty_numbers (self : manager) (rem : remote)
    (user_id organization_id : option string) (t : trace)
    (Hok : creds_ok self = true) :
  (exists info, info.(it_numbers) = [] /\
     create_inbound_trunk self rem [] user_id organization_id t
     = ((t ++ [EvOpen; EvCall "create_sip_inbound_trunk"; EvClose])%list,
        match rem.(create_sip_inbound_trunk) info with
        | Ok r => Ok [("success", PBool true); ("trunk_id", PStr r.(tr_sip_trunk_id));
                      ("numbers", pystrs r.(tr_numbers)); ("error", PNone)]
        | Raise e =>
            if exn_is_exception e
            then Ok [("success", PBool false); ("trunk_id", PNone);
                     ("error", PStr (exn_str e))]
            else Raise e
        end)) /\
  (forall username password sip_domain port,
   exists info, info.(ot_numbers) = [] /\
     create_outbound_trunk self rem username password sip_domain []
       user_id organization_id port t
     = ((t ++ [EvOpen; EvCall "create_sip_outbound_trunk"; EvClose])%list,
        match rem.(create_sip_outbound_trunk) info with
        | Ok r => Ok [("success", PBool true); ("trunk_id", PStr r.(tr_sip_trunk_id));
                      ("numbers", pystrs r.(tr_numbers)); ("error", PNone)]
        | Raise e =>
            if exn_is_exception e
            then Ok [("success", PBool false); ("trunk_id", PNone);
                     ("error", PStr (exn_str e))]
            else Raise e
        end)).
Proof.
  split; [| intros ].
  - unfold create_inbound_trunk, gated. rewrite (check_credentials_ok self Hok).
    unfold with_client, bind, remote_call, ret. cbv zeta.
    match goal with |- context [rem.(create_sip_inbound_trunk) ?i] =>
      exists i; split; [reflexivity|];
      destruct (rem.(create_sip_inbound_trunk) i) as [r|e] end;
    simpl; rewrite <- ?app_assoc; reflexivity.
  - unfold create_outbound_trunk, gated. rewrite (check_credentials_ok self Hok).
    unfold with_client, bind, remote_call, ret. cbv zeta.
    match goal with |- context [rem.(create_sip_outbound_trunk) ?i] =>
      exists i; split; [reflexivity|];
      destruct (rem.(create_sip_outbound_trunk) i) as [r|e] end;
    simpl; rewrite <- ?app_assoc; reflexivity.
Qed.

(** ** Witnesses: the theorems applied at concrete inputs *)

Lemma outbound_call_success_contract_witness :
  creds_ok configured = true /\ uuid_str_wf sample_uuid = true /\
  (let call_id := call_id_of sample_uuid in
   let room_name := outbound_room_name call_id (Some "cfg9") in
   String.length call_id = 8 /\ all_hex call_id = true /\
   (forall c, Some "cfg9" = Some c -> c <> "" ->
      room_name = "outbound-" ++ call_id ++ "-" ++ c) /\
   (str_truthy (Some "cfg9") = false -> room_name = "outbound-" ++ call_id) /\
   exists participant_id,
     accepting.(create_sip_participant)
       (sip_request_of "+15550001111" "+15552223333" "ST_x" room_name call_id)
       = Ok participant_id /\
     [("success", PBool true); ("room_name", PStr "outbound-3f2b9c1e-cfg9");
      ("call_id", PStr "3f2b9c1e"); ("participant_id", PStr "PA_1");
      ("error", PNone)]
     = [("success", PBool true); ("room_name", PStr room_name);
        ("call_id", PStr call_id); ("participant_id", PStr participant_id);
        ("error", PNone)]).
Proof.
  split; [reflexivity|]. split; [vm_compute; reflexivity|].
  apply (outbound_call_success_contract configured accepting sample_uuid
           "+15550001111" "+15552223333" "ST_x" "agent" (Some "cfg9") None []
           [EvOpen; EvCall "create_room"; EvCall "create_dispatch";
            EvCall "create_sip_participant"; EvClose]).
  - reflexivity.
  - vm_compute. reflexivity.
  - vm_compute. reflexivity.
  - reflexivity.
Defined.

Lemma outbound_partial_failure_result_witness :
  exists ms,
    create_outbound_call configured unknown_trunk sample_uuid "+15550001111"
      "+15552223333" "ST_missing" "agent" None None []
    = (([] ++ EvOpen :: EvCall "create_room" :: map EvCall ms ++ [EvClose])%list,
       Ok [("success", PBool false); ("room_name", PNone); ("call_id", PNone);
           ("error", PStr (exn_str (remote_error "trunk not found")))]) /\
    (forall m, In m ms -> m = "create_dispatch" \/ m = "create_sip_participant").
Proof.
  apply (outbound_partial_failure_result configured unknown_trunk sample_uuid
           "+15550001111" "+15552223333" "ST_missing" "agent" None None []
           (remote_error "trunk not found")).
  - reflexivity.
  - reflexivity.
  - reflexivity.
  - right. split; [right; reflexivity | reflexivity].
Defined.

Lemma credentials_gate_no_network_witness :
  creds_ok unconfigured = false /\
  exists d, run_op unconfigured accepting OpListInboundTrunks [] = ([], Ok d) /\
    dict_get "success" d = Some (PBool false) /\
    dict_get "error" d = Some (PStr "LiveKit credentials not configured").
Proof.
  split; [reflexivity|].
  apply (credentials_gate_no_network unconfigured accepting OpListInboundTrunks []).
  reflexivity.
Defined.

Lemma run_async_deadline_witness :
  executor_max_workers = 4 /\ run_async_timeout = 30 /\
  run_async (Some 31) (Ok tt) = Raise futures_timeout_error /\
  exn_is_exception futures_timeout_error = true /\
  (forall t, t <= run_async_timeout -> run_async (Some t) (Ok tt) = Ok tt).
Proof.
  apply (run_async_deadline unit (Ok tt) (Some 31)).
  intros t H. inversion H. unfold run_async_timeout. lia.
Defined.

Lemma outbound_call_input_checks_witness :
  creds_ok configured = true /\
  fst (make_outbound_call configured accepting sample_uuid
         [("from_number", ""); ("to_number", "+15552223333");
          ("trunk_id", "ST_x"); ("agent_name", "")] [])
  = fst (create_outbound_call configured accepting sample_uuid "" "+15552223333"
           "ST_x" "" None None []).
Proof.
  split; [reflexivity|].
  destruct (outbound_call_input_checks configured accepting sample_uuid eq_refl)
    as [_ [H _]].
  exact (proj1 (H [("from_number", ""); ("to_number", "+15552223333");
                   ("trunk_id", "ST_x"); ("agent_name", "")] []
                  "" "+15552223333" "ST_x" "" eq_refl eq_refl eq_refl eq_refl)).
Defined.

Lemma create_trunks_empty_numbers_witness :
  creds_ok configured = true /\
  exists info, info.(it_numbers) = [] /\
    create_inbound_trunk configured accepting [] None None []
    = (([] ++ [EvOpen; EvCall "create_sip_inbound_trunk"; EvClose])%list,
       match accepting.(create_sip_inbound_trunk) info with
       | Ok r => Ok [("success", PBool true); ("trunk_id", PStr r.(tr_sip_trunk_id));
                     ("numbers", pystrs r.(tr_numbers)); ("error", PNone)]
       | Raise e =>
           if exn_is_exception e
           then Ok [("success", PBool false); ("trunk_id", PNone);
                    ("error", PStr (exn_str e))]
           else Raise e
       end).
Proof.
  split; [reflexivity|].
  apply (create_trunks_empty_numbers configured accepting None None []).
  reflexivity.
Defined.

Lemma client_closed_on_every_exit_witness :
  creds_ok configured = true /\
  exists ms,
    fst (run_op configured unknown_trunk
           (OpCreateOutboundCall sample_uuid "+15550001111" "+15552223333"
              "ST_missing" "agent" None None) [])
    = ([] ++ EvOpen :: map EvCall ms ++ [EvClose])%list.
Proof.
  split; [reflexivity|].
  apply (client_closed_on_every_exit configured unknown_trunk
           (OpCreateOutboundCall sample_uuid "+15550001111" "+15552223333"
              "ST_missing" "agent" None None) []).
  reflexivity.
Defined.

Lemma result_envelope_witness :
  run_op configured unknown_trunk
    (OpCreateOutboundCall sample_uuid "+15550001111" "+15552223333"
       "ST_missing" "agent" None None) []
  = ([EvOpen; EvCall "create_room"; EvCall "create_dispatch";
      EvCall "create_sip_participant"; EvClose],
     Ok [("success", PBool false); ("room_name", PNone); ("call_id", PNone);
         ("error", PStr "trunk not found")]) /\
  envelope [("success", PBool false); ("room_name", PNone); ("call_id", PNone);
            ("error", PStr "trunk not found")].
Proof.
  split; [vm_compute; reflexivity|].
  apply (result_envelope configured unknown_trunk
           (OpCreateOutboundCall sample_uuid "+15550001111" "+15552223333"
              "ST_missing" "agent" None None) []
           [EvOpen; EvCall "create_room"; EvCall "create_dispatch";
            EvCall "create_sip_participant"; EvClose]).
  vm_compute. reflexivity.
Defined.

(** * Further properties of the telephony manager *)

(** X1: past the credential gate, [create_inbound_trunk] sends one request
    carrying exactly the given numbers, with Krisp enabled and the tenant
    headers defaulting to ["unknown"], and reports the server's trunk id
    and numbers on success, or [str(e)] on an [Exception]. *)
Theorem create_inbound_trunk_request (self : manager) (rem : remote)
    (phone_numbers : list string) (user_id organization_id : option string)
    (t : trace) (Hok : creds_ok self = true) :
  exists info,
    info.(it_numbers) = phone_numbers /\ info.(it_krisp_enabled) = true /\
    info.(it_headers) = [("X-Platform", "Epic-AI");
                         ("X-User-ID", or_unknown user_id);
                         ("X-Org-ID", or_unknown organization_id)] /\
    create_inbound_trunk self rem phone_numbers user_id organization_id t
    = ((t ++ [EvOpen; EvCall "create_sip_inbound_trunk"; EvClose])%list,
       match rem.(create_sip_inbound_trunk) info with
       | Ok r => Ok [("success", PBool true); ("trunk_id", PStr r.(tr_sip_trunk_id));
                     ("numbers", pystrs r.(tr_numbers)); ("error", PNone)]
       | Raise e =>
           if exn_is_exception e
           then Ok [("success", PBool false); ("trunk_id", PNone);
                    ("error", PStr (exn_str e))]
           else Raise e
       end).
Proof.
  unfold create_inbound_trunk, gated. rewrite (check_credentials_ok self Hok).
  unfold with_client, bind, remote_call, ret. cbv zeta.
  match goal with |- context [rem.(create_sip_inbound_trunk) ?i] =>
    exists i; split; [reflexivity|]; split; [reflexivity|]; split; [reflexivity|];
    destruct (rem.(create_sip_inbound_trunk) i) as [r|e] end;
  simpl; rewrite <- ?app_assoc; reflexivity.
Qed.

(** X2: past the credential gate, [create_outbound_trunk] sends one request
    whose address is ["{sip_domain}:{port}"] and which carries the given
    SIP username, password and numbers; the result mirrors the server's
    answer as for inbound trunks. *)
Theorem create_outbound_trunk_request (self : manager) (rem : remote)
    (username password sip_domain : string) (phone_numbers : list string)
    (user_id organization_id : option string) (port : nat) (t : trace)
    (Hok : creds_ok self = true) :
  exists info,
    info.(ot_address) = sip_domain ++ ":" ++ str_of_nat port /\
    info.(ot_auth_username) = username /\ info.(ot_auth_password) = password /\
    info.(ot_numbers) = phone_numbers /\
    create_outbound_trunk self rem username password sip_domain phone_numbers
      user_id organization_id port t
    = ((t ++ [EvOpen; EvCall "create_sip_outbound_trunk"; EvClose])%list,
       match rem.(create_sip_outbound_trunk) info with
       | Ok r => Ok [("success", PBool true); ("trunk_id", PStr r.(tr_sip_trunk_id));
                     ("numbers", pystrs r.(tr_numbers)); ("error", PNone)]
       | Raise e =>
           if exn_is_exception e
           then Ok [("success", PBool false); ("trunk_id", PNone);
                    ("error", PStr (exn_str e))]
           else Raise e
       end).
Proof.
  unfold create_outbound_trunk, gated. rewrite (check_credentials_ok self Hok).
  unfold with_client, bind, remote_call, ret. cbv zeta.
  match goal with |- context [rem.(create_sip_outbound_trunk) ?i] =>
    exists i; split; [reflexivity|]; split; [reflexivity|]; split; [reflexivity|];
    split; [reflexivity|];
    destruct (rem.(create_sip_outbound_trunk) i) as [r|e] end;
  simpl; rewrite <- ?app_assoc; reflexivity.
Qed.

Definition entry_field (k : string) (v : pyval) : option pyval :=
  match v with PDict d => dict_get k d | _ => None end.

(** X3: when the server lists its items, the three listing operations
    return one entry per item, in the server's order, carrying the item's
    id. *)
Theorem listings_keep_server_order (self : manager) (rem : remote) (t : trace)
    (Hok : creds_ok self = true) :
  (forall items, rem.(list_sip_inbound_trunk) = Ok items ->
   exists l, list_inbound_trunks self rem t
     = ((t ++ [EvOpen; EvCall "list_sip_inbound_trunk"; EvClose])%list,
        Ok [("success", PBool true); ("trunks", PList l); ("error", PNone)]) /\
     map (entry_field "trunk_id") l
     = map (fun i => Some (PStr i.(ii_sip_trunk_id))) items) /\
  (forall items, rem.(list_sip_outbound_trunk) = Ok items ->
   exists l, list_outbound_trunks self rem t
     = ((t ++ [EvOpen; EvCall "list_sip_outbound_trunk"; EvClose])%list,
        Ok [("success", PBool true); ("trunks", PList l); ("error", PNone)]) /\
     map (entry_field "trunk_id") l
     = map (fun i => Some (PStr i.(oi_sip_trunk_id))) items) /\
  (forall items, rem.(list_sip_dispatch_rule) = Ok items ->
   exists l, list_dispatch_rules self rem t
     = ((t ++ [EvOpen; EvCall "list_sip_dispatch_rule"; EvClose])%list,
        Ok [("success", PBool true); ("rules", PList l); ("error", PNone)]) /\
     map (entry_field "rule_id") l
     = map (fun i => Some (PStr i.(ri_sip_dispatch_rule_id))) items).
Proof.
  unfold list_inbound_trunks, list_outbound_trunks, list_dispatch_rules, gated.
  rewrite (check_credentials_ok self Hok).
  unfold with_client, bind, remote_call, ret. cbv zeta.
  repeat split; intros items H; rewrite H; simpl;
    (eexists; split; [rewrite <- ?app_assoc; reflexivity|]);
    rewrite map_map; apply map_ext; reflexivity.
Qed.

(** X4: when the server raises an [Exception] while listing, the listing
    operations return [success = False], an empty list and [str(e)]. *)
Theorem listings_on_remote_error (self : manager) (rem : remote) (t : trace)
    (e : exn) (Hok : creds_ok self = true) (Hexc : exn_is_exception e = true) :
  (rem.(list_sip_inbound_trunk) = Raise e ->
   list_inbound_trunks self rem t
   = ((t ++ [EvOpen; EvCall "list_sip_inbound_trunk"; EvClose])%list,
      Ok [("success", PBool false); ("trunks", PList []); ("error", PStr (exn_str e))])) /\
  (rem.(list_sip_outbound_trunk) = Raise e ->
   list_outbound_trunks self rem t
   = ((t ++ [EvOpen; EvCall "list_sip_outbound_trunk"; EvClose])%list,
      Ok [("success", PBool false); ("trunks", PList []); ("error", PStr (exn_str e))])) /\
  (rem.(list_sip_dispatch_rule) = Raise e ->
   list_dispatch_rules self rem t
   = ((t ++ [EvOpen; EvCall "list_sip_dispatch_rule"; EvClose])%list,
      Ok [("success", PBool false); ("rules", PList []); ("error", PStr (exn_str e))])).
Proof.
  unfold list_inbound_trunks, list_outbound_trunks, list_dispatch_rules, gated.
  rewrite (check_credentials_ok self Hok).
  unfold with_client, bind, remote_call, ret. cbv zeta.
  repeat split; intros H; rewrite H; simpl; rewrite Hexc, <- ?app_assoc; reflexivity.
Qed.

(** X5: a successful [create_outbound_call] performed its steps in order
    on one room: it created the room it reports, bound the agent to that
    room when an agent name was given, and dialled the participant into
    that same room, and the client saw exactly these calls. *)
Theorem outbound_call_steps_share_room (self : manager) (rem : remote)
    (uuid4 from_number to_number trunk_id agent_name : string)
    (agent_config_id organization_id : option string) (t t' : trace) (d : dict)
    (Hok : creds_ok self = true)
    (Hrun : create_outbound_call self rem uuid4 from_number to_number trunk_id
              agent_name agent_config_id organization_id t = (t', Ok d))
    (Hsucc : success_of d = true) :
  let room_name := outbound_room_name (call_id_of uuid4) agent_config_id in
  dict_get "room_name" d = Some (PStr room_name) /\
  rem.(create_room) room_name = Ok tt /\
  (String.eqb agent_name "" = false ->
   rem.(create_dispatch)
     (dispatch_request_of agent_name room_name agent_config_id organization_id)
   = Ok tt /\
   t' = (t ++ [EvOpen; EvCall "create_room"; EvCall "create_dispatch";
               EvCall "create_sip_participant"; EvClose])%list) /\
  (String.eqb agent_name "" = true ->
   t' = (t ++ [EvOpen; EvCall "create_room";
               EvCall "create_sip_participant"; EvClose])%list) /\
  exists pid,
    rem.(create_sip_participant)
      (sip_request_of from_number to_number trunk_id room_name (call_id_of uuid4))
    = Ok pid.
Proof.
  intros room_name. revert Hrun.
  unfold create_outbound_call, gated. rewrite (check_credentials_ok self Hok).
  unfold with_client, bind, remote_call, ret. cbv zeta. fold room_name.
  destruct (rem.(create_room) room_name) as [[]|e1] eqn:E1.
  2: { destruct e1 as [[|] m]; simpl; intros H; inversion H; subst;
       discriminate Hsucc. }
  destruct (String.eqb agent_name "") eqn:Ea; simpl.
  - destruct (rem.(create_sip_participant) _) as [pid|e3] eqn:E3; simpl.
    + intros H; inversion H; subst. repeat split; try discriminate.
      * intros _. rewrite <- !app_assoc. reflexivity.
      * eauto.
    + destruct e3 as [[|] m]; simpl; intros H; inversion H; subst;
        discriminate Hsucc.
  - destruct (rem.(create_dispatch) _) as [[]|e2] eqn:E2; simpl.
    + destruct (rem.(create_sip_participant) _) as [pid|e3] eqn:E3; simpl.
      * intros H; inversion H; subst. repeat split; try discriminate.
        rewrite <- !app_assoc. reflexivity. eauto.
      * destruct e3 as [[|] m]; simpl; intros H; inversion H; subst;
          discriminate Hsucc.
    + destruct e2 as [[|] m]; simpl; intros H; inversion H; subst;
        discriminate Hsucc.
Qed.

(** X6: with an empty agent name, [create_outbound_call] never calls
    [create_dispatch], whatever the server answers. *)
Theorem outbound_call_no_agent_no_dispatch (self : manager) (rem : remote)
    (uuid4 from_number to_number trunk_id : string)
    (agent_config_id organization_id : option string) (t : trace) :
  exists r,
    fst (create_outbound_call self rem uuid4 from_number to_number trunk_id ""
           agent_config_id organization_id t) = (t ++ r)%list /\
    ~ In (EvCall "create_dispatch") r.
Proof.
  unfold create_outbound_call, gated.
  destruct (check_credentials self).
  - exists []. rewrite app_nil_r. split; [reflexivity | intros []].
  - unfold with_client, bind, remote_call, ret. cbv zeta. simpl String.eqb.
    cbn iota.
    destruct (rem.(create_room) _) as [[]|e1].
    + destruct (rem.(create_sip_participant) _) as [pid|[[|] m]]; simpl;
        (eexists; split; [rewrite <- !app_assoc; reflexivity|]); simpl;
        intuition discriminate.
    + destruct e1 as [[|] m]; simpl;
        (eexists; split; [rewrite <- !app_assoc; reflexivity|]); simpl;
        intuition discriminate.
Qed.

(** X7: when creating the room raises an [Exception], [create_outbound_call]
    makes no further remote call and returns the failure dictionary. *)
Theorem outbound_call_room_failure_stops (self : manager) (rem : remote)
    (uuid4 from_number to_number trunk_id agent_name : string)
    (agent_config_id organization_id : option string) (t : trace) (e : exn)
    (Hok : creds_ok self = true) (Hexc : exn_is_exception e = true)
    (Hroom : rem.(create_room)
               (outbound_room_name (call_id_of uuid4) agent_config_id) = Raise e) :
  create_outbound_call self rem uuid4 from_number to_number trunk_id
    agent_name agent_config_id organization_id t
  = ((t ++ [EvOpen; EvCall "create_room"; EvClose])%list,
     Ok [("success", PBool false); ("room_name", PNone); ("call_id", PNone);
         ("error", PStr (exn_str e))]).
Proof.
  unfold create_outbound_call, gated. rewrite (check_credentials_ok self Hok).
  unfold with_client, bind, remote_call, ret. cbv zeta. rewrite Hroom.
  simpl. rewrite Hexc, <- !app_assoc. reflexivity.
Qed.

(** X8: a delete operation reports [success = True] exactly when the server
    confirmed the deletion; an [Exception] from the server is reported as
    [success = False] with [str(e)]. *)
Theorem delete_reports_server_answer (self : manager) (rem : remote)
    (id : string) (t : trace) (Hok : creds_ok self = true) :
  (rem.(delete_sip_trunk) id = Ok tt ->
   delete_inbound_trunk self rem id t
   = ((t ++ [EvOpen; EvCall "delete_sip_trunk"; EvClose])%list,
      Ok [("success", PBool true); ("error", PNone)])) /\
  (forall e, rem.(delete_sip_trunk) id = Raise e -> exn_is_exception e = true ->
   delete_inbound_trunk self rem id t
   = ((t ++ [EvOpen; EvCall "delete_sip_trunk"; EvClose])%list,
      Ok [("success", PBool false); ("error", PStr (exn_str e))])) /\
  (rem.(delete_sip_dispatch_rule) id = Ok tt ->
   delete_dispatch_rule self rem id t
   = ((t ++ [EvOpen; EvCall "delete_sip_dispatch_rule"; EvClose])%list,
      Ok [("success", PBool true); ("error", PNone)])) /\
  (forall e, rem.(delete_sip_dispatch_rule) id = Raise e -> exn_is_exception e = true ->
   delete_dispatch_rule self rem id t
   = ((t ++ [EvOpen; EvCall "delete_sip_dispatch_rule"; EvClose])%list,
      Ok [("success", PBool false); ("error", PStr (exn_str e))])).
Proof.
  unfold delete_inbound_trunk, delete_dispatch_rule, gated.
  rewrite (check_credentials_ok self Hok).
  unfold with_client, bind, remote_call, ret.
  repeat split; intros; match goal with H : _ = _ |- _ => rewrite H end;
    simpl; rewrite ?H0, <- ?app_assoc; reflexivity.
Qed.

Lemma missing_inv (f : string) (t t' : trace) (st : nat) (d : dict) :
  Main.missing f t = (t', Ok (st, d)) ->
  st = 400 /\ t' = t /\ exists field, d = [("error", PStr (field ++ " required"))].
Proof. unfold Main.missing, ret. intros H; inversion H; subst; eauto. Qed.

Ltac missing_case H := left; exact (missing_inv _ _ _ _ _ H).

Lemma respond_status (s : nat) (m : M dict) (t t' : trace) (st : nat) (d : dict) :
  Main.respond s m t = (t', Ok (st, d)) ->
  (st = s /\ success_of d = true) \/ (st = 500 /\ success_of d = false).
Proof.
  unfold Main.respond. destruct (m t) as [t1 [res|e]].
  - intros H; inversion H; subst.
    destruct (success_of d) eqn:E; [left | right]; auto.
  - destruct (exn_is_exception e); intros H; inversion H; subst. right. auto.
Qed.

(** X9: every telephony route answers in one of three ways: [400] with
    [{"error": "<field> required"}] before any client is opened, its
    success status (201 for a creation, 200 otherwise) with
    [success = True], or [500] with a body whose [success] is not [True]. *)
Theorem telephony_route_status (self : manager) (rem : remote) (r : Main.request)
    (t t' : trace) (st : nat) (d : dict)
    (H : Main.route self rem r t = (t', Ok (st, d))) :
  (st = 400 /\ t' = t /\ exists field, d = [("error", PStr (field ++ " required"))]) \/
  (st = Main.ok_status r /\ success_of d = true) \/
  (st = 500 /\ success_of d = false).
Proof.
  destruct r as [|data| |data|i| |data|i|u data]; simpl in H;
    unfold Main.list_inbound_trunks, Main.create_inbound_trunk,
      Main.list_outbound_trunks, Main.create_outbound_trunk, Main.delete_trunk,
      Main.list_dispatch_rules, Main.create_dispatch_rule,
      Main.delete_dispatch_rule in H.
  - right. exact (respond_status _ _ _ _ _ _ H).
  - destruct (match Main.ib_phone_numbers data with Some l => l | None => [] end).
    + unfold ret in H. inversion H; subst. left. split; [reflexivity|].
      split; [reflexivity|]. exists "phone_numbers". reflexivity.
    + right. exact (respond_status _ _ _ _ _ _ H).
  - right. exact (respond_status _ _ _ _ _ _ H).
  - destruct (Main.ob_username data); [|missing_case H].
    destruct (Main.ob_password data); [|missing_case H].
    destruct (Main.ob_sip_domain data); [|missing_case H].
    destruct (Main.ob_phone_numbers data); [|missing_case H].
    right. exact (respond_status _ _ _ _ _ _ H).
  - right. exact (respond_status _ _ _ _ _ _ H).
  - right. exact (respond_status _ _ _ _ _ _ H).
  - destruct (Main.db_agent_name data); [|missing_case H].
    right. exact (respond_status _ _ _ _ _ _ H).
  - right. exact (respond_status _ _ _ _ _ _ H).
  - unfold make_outbound_call in H.
    destruct (first_missing required_fields data) as [f|].
    + missing_case H.
    + destruct (create_outbound_call _ _ _ _ _ _ _ _ _ _) as [t1 [res|e]].
      * inversion H; subst. right.
        destruct (success_of d) eqn:E; [left | right]; auto.
      * destruct (exn_is_exception e); inversion H; subst. right. right. auto.
Qed.

(** X10: the HTTP layer rejects an inbound-trunk request whose
    [phone_numbers] is missing or empty with [400] and opens no client,
    although the manager itself accepts an empty list. *)
Theorem inbound_trunk_route_requires_numbers (self : manager) (rem : remote)
    (data : Main.inbound_trunk_body) (t : trace)
    (Hempty : data.(Main.ib_phone_numbers) = None \/
              data.(Main.ib_phone_numbers) = Some []) :
  Main.create_inbound_trunk self rem data t
  = (t, Ok (400, [("error", PStr "phone_numbers required")])).
Proof.
  unfold Main.create_inbound_trunk.
  destruct Hempty as [-> | ->]; reflexivity.
Qed.

(** X11: an outbound-trunk request with all required fields and no
    [port] creates the trunk at ["{sip_domain}:5060"] with the given
    credentials and numbers, and answers [201] with the new trunk id, or
    [500] with [str(e)] when the server raises an [Exception]. *)
Theorem outbound_trunk_route_default_port (self : manager) (rem : remote)
    (data : Main.outbound_trunk_body)
    (username password sip_domain : string) (phone_numbers : list string)
    (t : trace) (Hok : creds_ok self = true)
    (Hu : data.(Main.ob_username) = Some username)
    (Hp : data.(Main.ob_password) = Some password)
    (Hd : data.(Main.ob_sip_domain) = Some sip_domain)
    (Hn : data.(Main.ob_phone_numbers) = Some phone_numbers)
    (Hport : data.(Main.ob_port) = None) :
  exists info,
    info.(ot_address) = sip_domain ++ ":5060" /\
    info.(ot_auth_username) = username /\ info.(ot_auth_password) = password /\
    info.(ot_numbers) = phone_numbers /\
    Main.create_outbound_trunk self rem data t
    = ((t ++ [EvOpen; EvCall "create_sip_outbound_trunk"; EvClose])%list,
       match rem.(create_sip_outbound_trunk) info with
       | Ok r => Ok (201, [("success", PBool true); ("trunk_id", PStr r.(tr_sip_trunk_id));
                           ("numbers", pystrs r.(tr_numbers)); ("error", PNone)])
       | Raise e =>
           if exn_is_exception e
           then Ok (500, [("success", PBool false); ("trunk_id", PNone);
                          ("error", PStr (exn_str e))])
           else Raise e
       end).
Proof.
  unfold Main.create_outbound_trunk. rewrite Hu, Hp, Hd, Hn, Hport.
  destruct (create_outbound_trunk_request self rem username password sip_domain
              phone_numbers (Main.ob_user_id data) (Main.ob_organization_id data)
              5060 t Hok) as [info [Ha [Hun [Hpw [Hnum Hrun]]]]].
  exists info. rewrite Ha, Hun, Hpw, Hnum.
  split; [vm_compute; reflexivity|]. repeat (split; [reflexivity|]).
  unfold Main.respond. rewrite Hrun.
  destruct (rem.(create_sip_outbound_trunk) info) as [r|[[|] m]]; reflexivity.
Qed.

(** * Properties of [livekit_manager.py], [agent_creator.py] and [magnus_billing.py] *)

(** ** [str.replace] *)

Lemma prefix_app (p s : string) : String.prefix p (p ++ s) = true.
Proof.
  induction p as [|c p IH]; simpl.
  - destruct s; reflexivity.
  - destruct (ascii_dec c c) as [_|n]; [exact IH | contradiction].
Qed.

Lemma replace_skip (old new a s : string) :
  replace_from old new (String.length a) (a ++ s) = replace_from old new 0 s.
Proof. induction a as [|c a IH]; simpl; auto. Qed.

Lemma replace_occurrence (old new s : string) (Hne : old <> "") :
  py_replace old new (old ++ s) = new ++ py_replace old new s.
Proof.
  unfold py_replace. destruct old as [|c o]; [contradiction|].
  cbn [replace_from String.append].
  replace (String.prefix (String c o) (String c (o ++ s))) with true
    by (symmetry; exact (prefix_app (String c o) s)).
  cbn [String.length]. rewrite Nat.sub_succ, Nat.sub_0_r, replace_skip.
  reflexivity.
Qed.

Lemma replace_absent (old new s : string) :
  contains old s = false -> py_replace old new s = s.
Proof.
  unfold py_replace. induction s as [|c s IH]; simpl; [reflexivity|].
  intros H. apply orb_false_iff in H as [Hp Hc].
  simpl in Hp. rewrite Hp. rewrite (IH Hc). reflexivity.
Qed.

(** X12: the three LiveKit helpers turn a [wss://] URL into [https://] and
    a [ws://] URL into [http://], keeping the rest of the URL, and leave a
    URL without these schemes unchanged, provided the rest of the URL does
    not itself contain [wss://] or [ws://]. *)
Theorem http_url_scheme (h : string)
    (H1 : contains "wss://" h = false) (H2 : contains "ws://" h = false) :
  http_url_of ("wss://" ++ h) = "https://" ++ h /\
  http_url_of ("ws://" ++ h) = "http://" ++ h /\
  http_url_of h = h.
Proof.
  unfold http_url_of. split; [|split].
  - rewrite replace_occurrence by discriminate.
    rewrite (replace_absent "wss://" "https://" h H1).
    apply replace_absent. simpl. exact H2.
  - rewrite (replace_absent "wss://" "https://" ("ws://" ++ h)) by (simpl; exact H1).
    rewrite replace_occurrence by discriminate.
    rewrite (replace_absent "ws://" "http://" h H2). reflexivity.
  - rewrite (replace_absent "wss://" "https://" h H1). apply replace_absent. exact H2.
Qed.

(** X13: [get_livekit_config] runs no connection test and reports
    ["not_configured"] when the SDK is missing or the URL or API key is
    empty; otherwise a connection test that [run_async] abandons after its
    30 seconds is reported as status ["error"], not raised. *)
Theorem livekit_config_status (sdk_installed : bool) (url key agents_dir : string)
    (test : outcome bool) :
  ((sdk_installed = false \/ url = "" \/ key = "") ->
   get_livekit_config sdk_installed url key agents_dir test
   = (false, Ok (200, [("url", PStr url); ("api_key", api_key_display key);
                       ("status", PStr "not_configured");
                       ("agents_dir", PStr agents_dir)]))) /\
  (forall finish,
   sdk_installed = true -> url <> "" -> key <> "" ->
   (finish = None \/ exists n, finish = Some n /\ run_async_timeout < n) ->
   get_livekit_config sdk_installed url key agents_dir (run_async finish test)
   = (true, Ok (200, [("url", PStr url); ("api_key", api_key_display key);
                      ("status", PStr "error"); ("agents_dir", PStr agents_dir)]))).
Proof.
  split.
  - intros H. unfold get_livekit_config.
    replace (sdk_installed && negb (url =? "") && negb (key =? "")) with false.
    + reflexivity.
    + destruct H as [-> | [-> | ->]]; simpl; rewrite ?andb_false_r; reflexivity.
  - intros finish Hs Hu Hk Hf. unfold get_livekit_config.
    subst sdk_installed. apply String.eqb_neq in Hu, Hk. rewrite Hu, Hk. simpl.
    replace (run_async finish test) with (@Raise bool futures_timeout_error).
    + reflexivity.
    + destruct Hf as [-> | [n [-> Hn]]]; [reflexivity|].
      unfold run_async. apply Nat.leb_gt in Hn. rewrite Hn. reflexivity.
Qed.

(** X14: the configuration shows at most the first 10 characters of the
    API key followed by ["..."]; a key of 10 characters or fewer is shown
    in full, and an empty key as [None]. *)
Theorem api_key_display_masks (key : string) :
  (key = "" -> api_key_display key = PNone) /\
  (key <> "" -> exists shown,
     api_key_display key = PStr (shown ++ "...") /\
     String.length shown = Nat.min 10 (String.length key) /\
     String.prefix shown key = true /\
     (String.length key <= 10 -> shown = key)).
Proof.
  split.
  - intros ->. reflexivity.
  - intros Hk. unfold api_key_display. apply String.eqb_neq in Hk. rewrite Hk.
    exists (substring 0 10 key). split; [reflexivity|].
    clear Hk. revert key.
    assert (G : forall n key, String.length (substring 0 n key) = Nat.min n (String.length key) /\
               String.prefix (substring 0 n key) key = true /\
               (String.length key <= n -> substring 0 n key = key)).
    { induction n as [|n IH]; intros [|c key]; simpl.
      - repeat split.
      - repeat split. intros H; lia.
      - repeat split.
      - destruct (IH key) as [H1 [H2 H3]]. rewrite H1.
        destruct (ascii_dec c c) as [_|e]; [|contradiction].
        repeat split; [exact H2|]. intros Hle. rewrite H3 by lia. reflexivity. }
    intros key. apply G.
Qed.

(** X15: [list_rooms] and [get_room_participants] answer [500] without
    using the server when the SDK is missing; when [run_async] gives up on
    the server after 30 seconds, they answer [500] with their error message
    and the empty [str] of the [TimeoutError]. *)
Theorem room_routes_errors (room_name : string) (o1 : outcome (list room_info))
    (o2 : outcome (list participant_info)) :
  list_rooms false o1 = Ok (500, [("error", PStr "LiveKit SDK not installed")]) /\
  get_room_participants false room_name o2
    = Ok (500, [("error", PStr "LiveKit SDK not installed")]) /\
  (forall finish, (finish = None \/ exists n, finish = Some n /\ run_async_timeout < n) ->
   list_rooms true (run_async finish o1)
     = Ok (500, [("error", PStr "Failed to list rooms"); ("details", PStr "")]) /\
   get_room_participants true room_name (run_async finish o2)
     = Ok (500, [("error", PStr "Failed to get room participants");
                 ("details", PStr "")])).
Proof.
  split; [reflexivity|]. split; [reflexivity|].
  intros finish Hf.
  destruct Hf as [-> | [n [-> Hn]]]; [split; reflexivity|].
  unfold run_async. apply Nat.leb_gt in Hn. rewrite Hn. split; reflexivity.
Qed.

(** X16: [generate_token] refuses a body whose [room] is missing or empty
    with [400], without signing anything; otherwise it signs a token for
    exactly that room, with join, publish, subscribe and data grants, under
    the given identity or ["user-<timestamp>"], and echoes room and
    identity. *)
Theorem generate_token_contract (to_jwt : token_claims -> outcome string)
    (url key secret : string) (now : nat) (data : token_body) :
  ((data.(tb_room) = None \/ data.(tb_room) = Some "") ->
   generate_token to_jwt url key secret now data
   = Ok (400, [("error", PStr "room is required")])) /\
  (forall room jwt, data.(tb_room) = Some room -> room <> "" ->
   let identity :=
     match data.(tb_identity) with Some i => i | None => "user-" ++ str_of_nat now end in
   to_jwt {| tc_api_key := key; tc_api_secret := secret;
             tc_identity := identity; tc_name := identity;
             tc_metadata := match data.(tb_metadata) with Some m => m | None => PDict [] end;
             tc_room := room; tc_room_join := true; tc_can_publish := true;
             tc_can_subscribe := true; tc_can_publish_data := true |} = Ok jwt ->
   generate_token to_jwt url key secret now data
   = Ok (200, [("token", PStr jwt); ("url", PStr url); ("room", PStr room);
               ("identity", PStr identity)])).
Proof.
  split.
  - intros [H | H]; unfold generate_token; rewrite H; reflexivity.
  - intros room jwt Hr Hne identity Hjwt. unfold generate_token. rewrite Hr.
    apply String.eqb_neq in Hne. cbn [str_truthy]. rewrite Hne. cbn [negb].
    fold identity. rewrite Hjwt. reflexivity.
Qed.



Lemma str_all_app (p : ascii -> bool) (x y : string) :
  str_all p (x ++ y) = str_all p x && str_all p y.
Proof.
  unfold str_all. induction x as [|c x IH]; simpl; [reflexivity|].
  rewrite IH, andb_assoc. reflexivity.
Qed.






(** ** [agent_creator.py] *)

Ltac every_char :=
  intros [[] [] [] [] [] [] [] []]; vm_compute; reflexivity.

Lemma id_char_lower (c : ascii) :
  implb (is_id_char c) (Ascii.eqb (py_lower_char c) c) = true.
Proof. revert c. every_char. Qed.

Lemma id_char_not_space (c : ascii) :
  implb (is_id_char c) (negb (Ascii.eqb c " ")) = true.
Proof. revert c. every_char. Qed.

Lemma str_all_filter (p : ascii -> bool) (s : string) : str_all p (str_filter p s) = true.
Proof.
  unfold str_all. induction s as [|c s IH]; simpl; [reflexivity|].
  destruct (p c) eqn:E; simpl; [rewrite E|]; exact IH.
Qed.

Lemma str_filter_all (p : ascii -> bool) (s : string) :
  str_all p s = true -> str_filter p s = s.
Proof.
  unfold str_all. induction s as [|c s IH]; simpl; [reflexivity|].
  intros H. apply andb_true_iff in H as [Hc Hs]. rewrite Hc, IH; auto.
Qed.

Lemma py_lower_ids (s : string) : str_all is_id_char s = true -> py_lower s = s.
Proof.
  unfold str_all, py_lower. induction s as [|c s IH]; simpl; [reflexivity|].
  intros H. apply andb_true_iff in H as [Hc Hs].
  pose proof (id_char_lower c) as L. rewrite Hc in L. simpl in L.
  apply Ascii.eqb_eq in L. rewrite L, IH; auto.
Qed.

Lemma ids_no_space (s : string) : str_all is_id_char s = true -> contains " " s = false.
Proof.
  unfold str_all. induction s as [|c s IH]; [reflexivity|].
  cbn [list_ascii_of_string forallb]. intros H. apply andb_true_iff in H as [Hc Hs].
  pose proof (id_char_not_space c) as L. rewrite Hc in L. simpl in L.
  change (contains " " (String c s)) with (String.prefix " " (String c s) || contains " " s).
  rewrite IH by exact Hs. rewrite orb_false_r. cbn [String.prefix].
  destruct (ascii_dec " " c) as [<-|n]; [discriminate L | reflexivity].
Qed.

(** X18: [_generate_agent_id] always returns a non-empty string of
    lowercase ASCII letters, digits and underscores, so
    [self.agents_dir / agent_id] is a single directory entry of
    [agents_dir] (no separator, never [.] or [..]). *)
Theorem agent_id_safe (name : string) :
  generate_agent_id name <> "" /\ str_all is_id_char (generate_agent_id name) = true.
Proof.
  unfold generate_agent_id.
  destruct (String.eqb (str_filter is_id_char (py_replace " " "_" (py_lower name))) "") eqn:E.
  - split; [discriminate | reflexivity].
  - apply String.eqb_neq in E. split; [exact E | apply str_all_filter].
Qed.

(** X19: [_generate_agent_id] is idempotent: an agent id given as a name
    yields the same id. *)
Theorem agent_id_idempotent (name : string) :
  generate_agent_id (generate_agent_id name) = generate_agent_id name.
Proof.
  destruct (agent_id_safe name) as [Hne Hall].
  set (x := generate_agent_id name) in *.
  unfold generate_agent_id at 1.
  rewrite (py_lower_ids x Hall), (replace_absent " " "_" x (ids_no_space x Hall)),
    (str_filter_all is_id_char x Hall).
  apply String.eqb_neq in Hne. rewrite Hne. reflexivity.
Qed.

Lemma class_char_upper (c : ascii) :
  implb (is_class_char c) (is_class_char (ascii_upper c)) = true.
Proof. revert c. every_char. Qed.

Lemma class_char_lower (c : ascii) :
  implb (is_class_char c) (is_class_char (py_lower_char c)) = true.
Proof. revert c. every_char. Qed.

Lemma digit_char_kept (c : ascii) :
  implb (char_in 48 57 c)
    (is_class_char c && negb (py_isspace c) && Ascii.eqb (ascii_upper c) c) = true.
Proof. revert c. every_char. Qed.

Lemma split_ws_words (s cur : string) :
  str_all is_class_char cur = true ->
  str_all (fun c => is_class_char c || py_isspace c) s = true ->
  Forall (fun w => str_all is_class_char w = true) (split_ws_aux cur s).
Proof.
  revert cur. induction s as [|c s IH]; intros cur Hcur Hs; simpl.
  - destruct (String.eqb cur ""); auto.
  - unfold str_all in Hs. simpl in Hs. apply andb_true_iff in Hs as [Hc Hs].
    destruct (py_isspace c) eqn:Sp.
    + destruct (String.eqb cur ""); [|constructor; [exact Hcur|]];
        apply IH; auto; reflexivity.
    + apply IH; [|exact Hs]. rewrite str_all_app, Hcur. unfold str_all. simpl.
      rewrite orb_false_r in Hc. rewrite Hc. reflexivity.
Qed.

Lemma capitalize_chars (w : string) :
  str_all is_class_char w = true -> str_all is_class_char (capitalize w) = true.
Proof.
  destruct w as [|c w]; [reflexivity|]. unfold str_all. simpl.
  intros H. apply andb_true_iff in H as [Hc Hw].
  pose proof (class_char_upper c) as U. rewrite Hc in U. simpl in U. rewrite U.
  simpl. clear c Hc U. unfold py_lower. induction w as [|c w IH]; [reflexivity|].
  simpl in *. apply andb_true_iff in Hw as [Hc Hw].
  pose proof (class_char_lower c) as L. rewrite Hc in L. simpl in L.
  rewrite L. simpl. exact (IH Hw).
Qed.

Lemma concat_chars (l : list string) :
  Forall (fun w => str_all is_class_char w = true) l ->
  str_all is_class_char (str_concat l) = true.
Proof.
  induction 1 as [|w l Hw Hl IH]; [reflexivity|].
  simpl. rewrite str_all_app, Hw, IH. reflexivity.
Qed.

Lemma split_ws_first (d : ascii) (rest cur : string) :
  py_isspace d = false ->
  exists w l, split_ws_aux (String d cur) rest = String d w :: l.
Proof.
  intros Hd. revert cur. induction rest as [|c rest IH]; intros cur; simpl.
  - eauto.
  - destruct (py_isspace c); [eauto|]. exact (IH (cur ++ String c "")).
Qed.

(** X20: [_generate_class_name] returns ASCII letters, digits and
    underscores ending in [Agent]; for a name starting with a digit the
    class name starts with that digit, so the [class <name>(Agent):] line
    written into [agent_logic.py] is not valid Python. *)
Theorem class_name_shape (name : string) :
  str_all is_class_char (generate_class_name name) = true /\
  (exists p, generate_class_name name = p ++ "Agent") /\
  (forall d s, char_in 48 57 d = true ->
   exists r, generate_class_name (String d s) = String d r).
Proof.
  split; [|split].
  - unfold generate_class_name.
    match goal with |- context [String.eqb ?x ""] => destruct (String.eqb x "") eqn:E end.
    + reflexivity.
    + rewrite str_all_app. rewrite concat_chars; [reflexivity|].
      pose proof (split_ws_words
                    (str_filter (fun c => is_class_char c || py_isspace c) name) ""
                    eq_refl (str_all_filter _ _)) as F.
      rewrite Forall_forall in F. apply Forall_map, Forall_forall.
      intros w Hw. apply filter_In in Hw as [Hw _]. apply capitalize_chars, F, Hw.
  - unfold generate_class_name.
    match goal with |- context [String.eqb ?x ""] => destruct (String.eqb x "") eqn:E end.
    + exists "Custom". reflexivity.
    + eexists. reflexivity.
  - intros d s Hd. pose proof (digit_char_kept d) as K. rewrite Hd in K. simpl in K.
    apply andb_true_iff in K as [K Hu]. apply andb_true_iff in K as [Hc Hs].
    apply negb_true_iff in Hs. apply Ascii.eqb_eq in Hu.
    unfold generate_class_name, py_split. cbn [str_filter]. rewrite Hc. cbn [orb].
    cbn [split_ws_aux]. rewrite Hs.
    destruct (split_ws_first d (str_filter (fun c => is_class_char c || py_isspace c) s) ""
                Hs) as [w [l Hsplit]].
    change ("" ++ String d "") with (String d ""). rewrite Hsplit.
    cbn [filter String.eqb negb map str_concat capitalize]. rewrite Hu.
    simpl. eexists. reflexivity.
Qed.

Lemma str_append_nil (s : string) : s ++ "" = s.
Proof. induction s as [|c s IH]; simpl; [reflexivity | now rewrite IH]. Qed.

Lemma replace_char_cons (c x : ascii) (r s : string) :
  py_replace (String c "") r (String x s)
  = (if Ascii.eqb x c then r else String x "") ++ py_replace (String c "") r s.
Proof.
  unfold py_replace. cbn [replace_from String.prefix].
  destruct (ascii_dec c x) as [<-|n].
  - rewrite Ascii.eqb_refl.
    assert (P : String.prefix "" s = true) by (destruct s; reflexivity).
    rewrite P. reflexivity.
  - destruct (Ascii.eqb_spec x c) as [->|_]; [contradiction|reflexivity].
Qed.

Lemma replace_char_app (c : ascii) (r a b : string) :
  py_replace (String c "") r (a ++ b)
  = py_replace (String c "") r a ++ py_replace (String c "") r b.
Proof.
  induction a as [|x a IH]; [reflexivity|].
  cbn [String.append]. rewrite !replace_char_cons, IH, str_append_assoc. reflexivity.
Qed.

Lemma escape_cons (x : ascii) (s : string) :
  escape_instructions (String x s)
  = (if Ascii.eqb x dquote then String backslash (String dquote "")
     else if Ascii.eqb x newline then String backslash "n"
     else String x "") ++ escape_instructions s.
Proof.
  unfold escape_instructions. rewrite replace_char_cons, replace_char_app.
  destruct (Ascii.eqb_spec x dquote) as [->|Hq].
  - reflexivity.
  - rewrite replace_char_cons.
    change (py_replace (String newline "") (String backslash "n") "") with "".
    rewrite str_append_nil. reflexivity.
Qed.

Lemma quotes_escaped_any (s : string) :
  forall prev, quotes_escaped prev (escape_instructions s) = true.
Proof.
  induction s as [|x s IH]; intros prev; [reflexivity|].
  rewrite escape_cons.
  destruct (Ascii.eqb_spec x dquote) as [->|Hq]; [simpl; apply IH|].
  destruct (Ascii.eqb_spec x newline) as [->|Hn]; [simpl; apply IH|].
  cbn [String.append quotes_escaped].
  apply Ascii.eqb_neq in Hq. rewrite Hq. apply IH.
Qed.

(** X21: the escaping of the instructions in [_create_agent_logic] leaves
    no line feed ([\n]) and puts a backslash before every double quote, but
    escapes neither carriage returns nor backslashes: a [\r] (as in CRLF
    input) is copied as is, so it still ends the line of
    [instructions="{instructions}"] in the generated Python, and a trailing
    backslash stays last, so it escapes the closing quote. *)
Theorem instructions_escaping (s : string) :
  no_newline (escape_instructions s) = true /\
  quotes_escaped None (escape_instructions s) = true /\
  escape_instructions (String carriage_return s)
  = String carriage_return (escape_instructions s) /\
  escape_instructions (s ++ String backslash "")
  = escape_instructions s ++ String backslash "".
Proof.
  split; [|split; [|split]].
  - induction s as [|x s IH]; [reflexivity|].
    rewrite escape_cons. unfold no_newline in *. rewrite str_all_app, IH, andb_true_r.
    destruct (Ascii.eqb_spec x dquote) as [->|Hq]; [reflexivity|].
    destruct (Ascii.eqb_spec x newline) as [->|Hn]; [reflexivity|].
    unfold str_all. simpl. apply Ascii.eqb_neq in Hn. rewrite Hn. reflexivity.
  - apply quotes_escaped_any.
  - rewrite escape_cons. reflexivity.
  - unfold escape_instructions. rewrite !replace_char_app. reflexivity.
Qed.

(** X22: the plugin list of [requirements.txt] starts with [openai] and
    [silero] and has no duplicates; when the configuration names an STT
    provider other than [deepgram], the [deepgram] plugin is left out
    although the generated [agent_logic.py] always imports it; an [stt]
    entry that is not an object makes [_create_requirements] raise
    [AttributeError]. *)
Theorem requirements_plugins_deepgram (config : dict) :
  (forall plugins, requirements_plugins config = Ok plugins ->
   firstn 2 plugins = ["openai"; "silero"] /\ NoDup plugins /\
   (forall d p, dict_get "stt" config = Some (PDict d) ->
    dict_get "provider" d = Some (PStr p) -> p <> "deepgram" ->
    ~ In "deepgram" plugins /\ In "deepgram" agent_logic_plugin_imports)) /\
  (forall v, dict_get "stt" config = Some v -> (forall d, v <> PDict d) ->
   requirements_plugins config = Raise (attribute_error v "get")).
Proof.
  split.
  - intros plugins H. unfold requirements_plugins in H. cbn [py_get] in H.
    destruct (dict_get "stt" config) as [stt|] eqn:Estt.
    + destruct stt as [| | | |l|d]; try discriminate H.
      cbn [py_get] in H.
      destruct (py_get (match dict_get "tts" config with Some x => x | None => PDict [] end)
                  "provider" (PStr "openai")) as [tp|] eqn:Etp; [|discriminate H].
      injection H as <-.
      assert (N : NoDup (["openai"; "silero"] ++
          (if pyval_is_str match dict_get "provider" d with Some x => x | None => PStr "deepgram" end "deepgram" then ["deepgram"] else []) ++
          (if pyval_is_str tp "elevenlabs" then ["elevenlabs"] else []) ++
          (if pyval_is_str tp "cartesia" then ["cartesia"] else []))%list).
      { destruct (pyval_is_str _ "deepgram"), (pyval_is_str tp "elevenlabs"),
          (pyval_is_str tp "cartesia"); simpl;
          repeat constructor; simpl; intuition discriminate. }
      split; [reflexivity|]. split; [exact N|].
      intros d' p Hd Hp Hne. injection Hd as <-. rewrite Hp. split; [|simpl; auto].
      cbn [pyval_is_str]. apply String.eqb_neq in Hne. rewrite Hne. simpl.
      destruct (pyval_is_str tp "elevenlabs"), (pyval_is_str tp "cartesia"); simpl;
        intuition discriminate.
    + cbn [py_get] in H.
      destruct (py_get (match dict_get "tts" config with Some x => x | None => PDict [] end)
                  "provider" (PStr "openai")) as [tp|] eqn:Etp; [|discriminate H].
      injection H as <-. split; [reflexivity|]. split.
      * destruct (pyval_is_str tp "elevenlabs"), (pyval_is_str tp "cartesia"); simpl;
          repeat constructor; simpl; intuition discriminate.
      * intros d p Hd. discriminate Hd.
  - intros v Hv Hnd. unfold requirements_plugins. cbn [py_get]. rewrite Hv.
    destruct v as [| | | |l|d]; try reflexivity.
    exfalso. exact (Hnd d eq_refl).
Qed.

(** ** [magnus_billing.py] *)

Lemma rstrip_no_trailing (c : ascii) (s p : string) :
  rstrip_char c s <> p ++ String c "".
Proof.
  revert p. induction s as [|x s IH]; intros p; simpl.
  - destruct p; discriminate.
  - destruct (String.eqb (rstrip_char c s) "") eqn:Er; destruct (Ascii.eqb x c) eqn:Ex;
      simpl; try (destruct p; discriminate).
    all: intros H; destruct p as [|y p]; simpl in H; injection H; intros; subst;
      try (rewrite Ascii.eqb_refl in Ex; discriminate);
      try (rewrite String.eqb_refl in Er; discriminate);
      try (exact (IH p ltac:(assumption)));
      try (destruct p; discriminate).
    all: rewrite H0 in Er; discriminate.
Qed.

Lemma lstrip_no_leading (c : ascii) (s q : string) :
  lstrip_char c s <> String c q.
Proof.
  induction s as [|x s IH]; simpl; [discriminate|].
  destruct (Ascii.eqb_spec x c) as [->|Hx]; [exact IH|].
  intros H. inversion H. contradiction.
Qed.

(** X23: a client that [MagnusBillingClient.__init__] accepts has a
    non-empty base URL, and [_make_request] joins it to any endpoint with
    exactly one slash: the base never ends with [/] and the endpoint part
    never starts with [/]. *)
Theorem magnus_url_join (api_url api_key account_id : option string)
    (env_url env_key env_account : string) (timeout : nat) (c : magnus_client)
    (H : magnus_init api_url api_key account_id env_url env_key env_account timeout = Ok c)
    (endpoint : string) :
  exists base path,
    request_url c endpoint = base ++ "/" ++ path /\
    base = rstrip_char "/" (or_env api_url env_url) /\ base <> "" /\
    (forall p, base <> p ++ "/") /\ (forall q, path <> "/" ++ q).
Proof.
  unfold magnus_init in H.
  destruct (String.eqb (rstrip_char "/" (or_env api_url env_url)) "") eqn:Eu;
    [discriminate H|].
  destruct (String.eqb (or_env api_key env_key) ""); [discriminate H|].
  injection H as <-. unfold request_url. simpl.
  exists (rstrip_char "/" (or_env api_url env_url)), (lstrip_char "/" endpoint).
  split; [reflexivity|]. split; [reflexivity|].
  split; [apply String.eqb_neq; exact Eu|].
  split; [intros p; apply rstrip_no_trailing | intros q; apply lstrip_no_leading].
Qed.


(** X25: not every failure of [_make_request] becomes a [MagnusAPIError]:
    an error response whose body is not a JSON object, or whose [error]
    field is not an object (for instance a string), raises
    [AttributeError] from [.get]; an exception of [requests.request] that
    is not a [requests.RequestException] escapes unchanged; a
    [RequestException] becomes ["Request failed: " + str(e)] without status
    code. *)
Theorem make_request_other_failures (self : magnus_client)
    (send : http_request -> transport) (method endpoint : string)
    (data params : option pyval) :
  let rq := {| rq_method := method; rq_url := request_url self endpoint;
               rq_headers := magnus_headers self; rq_json := data;
               rq_params := params; rq_timeout := self.(mc_timeout) |} in
  (forall r v, send rq = Responded r -> r.(hr_ok) = false -> r.(hr_json) = Some v ->
   (forall d, v <> PDict d) ->
   make_request self send method endpoint data params
   = MErr (OtherError (attribute_error v "get"))) /\
  (forall r d v, send rq = Responded r -> r.(hr_ok) = false ->
   r.(hr_json) = Some (PDict d) -> dict_get "error" d = Some v ->
   (forall e, v <> PDict e) ->
   make_request self send method endpoint data params
   = MErr (OtherError (attribute_error v "get"))) /\
  (forall e, send rq = Failed false e ->
   make_request self send method endpoint data params = MErr (OtherError e)) /\
  (forall e, send rq = Failed true e ->
   make_request self send method endpoint data params
   = MErr (MagnusAPIError "Request failed: " (PStr (exn_str e)) None None)).
Proof.
  intros rq. unfold make_request. fold rq.
  split; [|split; [|split]].
  - intros r v Hs Hok Hj Hnd. rewrite Hs, Hok, Hj.
    destruct v as [| | | |l|d]; try reflexivity. exfalso; exact (Hnd d eq_refl).
  - intros r d v Hs Hok Hj He Hnd. rewrite Hs, Hok, Hj. cbn [py_get]. rewrite He.
    destruct v as [| | | |l|e]; try reflexivity. exfalso; exact (Hnd e eq_refl).
  - intros e Hs. rewrite Hs. reflexivity.
  - intros e Hs. rewrite Hs. reflexivity.
Qed.

(** ** Witnesses of the further properties *)

Lemma create_inbound_trunk_request_witness :
  creds_ok configured = true /\
  exists info, info.(it_numbers) = ["+15550001111"] /\ info.(it_krisp_enabled) = true.
Proof.
  split; [reflexivity|].
  destruct (create_inbound_trunk_request configured accepting ["+15550001111"]
              None None [] eq_refl) as [info [H1 [H2 _]]].
  exists info. split; assumption.
Defined.

Lemma create_outbound_trunk_request_witness :
  creds_ok configured = true /\
  exists info, info.(ot_address) = "sip.example.com:5080".
Proof.
  split; [reflexivity|].
  destruct (create_outbound_trunk_request configured accepting "u1" "p1"
              "sip.example.com" ["+15550001111"] None None 5080 [] eq_refl)
    as [info [H1 _]].
  exists info. exact H1.
Defined.

Lemma listings_keep_server_order_witness :
  creds_ok configured = true /\
  exists l, map (entry_field "trunk_id") l = [].
Proof.
  split; [reflexivity|].
  destruct (listings_keep_server_order configured accepting [] eq_refl) as [H _].
  destruct (H [] eq_refl) as [l [_ Hl]]. exists l. exact Hl.
Defined.

Lemma listings_on_remote_error_witness :
  creds_ok configured = true /\
  exn_is_exception (remote_error "connection refused") = true /\
  list_inbound_trunks configured unreachable []
  = ([EvOpen; EvCall "list_sip_inbound_trunk"; EvClose],
     Ok [("success", PBool false); ("trunks", PList []);
         ("error", PStr "connection refused")]).
Proof.
  split; [reflexivity|]. split; [reflexivity|].
  destruct (listings_on_remote_error configured unreachable []
              (remote_error "connection refused") eq_refl eq_refl) as [H _].
  exact (H eq_refl).
Defined.

Lemma outbound_call_steps_share_room_witness :
  creds_ok configured = true /\
  accepting.(create_room) "outbound-3f2b9c1e-cfg9" = Ok tt.
Proof.
  split; [reflexivity|].
  destruct (outbound_call_steps_share_room configured accepting sample_uuid
              "+15550001111" "+15552223333" "ST_x" "agent" (Some "cfg9") None [] _ _
              eq_refl outbound_call_sample eq_refl) as [_ [H _]].
  exact H.
Defined.

Lemma outbound_call_room_failure_stops_witness :
  creds_ok configured = true /\
  exn_is_exception (remote_error "connection refused") = true /\
  create_outbound_call configured unreachable sample_uuid "+15550001111"
    "+15552223333" "ST_x" "agent" None None []
  = ([EvOpen; EvCall "create_room"; EvClose],
     Ok [("success", PBool false); ("room_name", PNone); ("call_id", PNone);
         ("error", PStr "connection refused")]).
Proof.
  split; [reflexivity|]. split; [reflexivity|].
  exact (outbound_call_room_failure_stops configured unreachable sample_uuid
           "+15550001111" "+15552223333" "ST_x" "agent" None None []
           (remote_error "connection refused") eq_refl eq_refl eq_refl).
Defined.

Lemma delete_reports_server_answer_witness :
  creds_ok configured = true /\
  delete_inbound_trunk configured accepting "ST_in" []
  = ([EvOpen; EvCall "delete_sip_trunk"; EvClose],
     Ok [("success", PBool true); ("error", PNone)]).
Proof.
  split; [reflexivity|].
  destruct (delete_reports_server_answer configured accepting "ST_in" [] eq_refl)
    as [H _].
  exact (H eq_refl).
Defined.

Lemma telephony_route_status_witness :
  Main.route configured accepting Main.GetInboundTrunks []
  = ([EvOpen; EvCall "list_sip_inbound_trunk"; EvClose],
     Ok (200, [("success", PBool true); ("trunks", PList []); ("error", PNone)])) /\
  ((200 = 400 /\ [EvOpen; EvCall "list_sip_inbound_trunk"; EvClose] = [] /\
    exists field, [("success", PBool true); ("trunks", PList []); ("error", PNone)]
                  = [("error", PStr (field ++ " required"))]) \/
   (200 = Main.ok_status Main.GetInboundTrunks /\
    success_of [("success", PBool true); ("trunks", PList []); ("error", PNone)] = true) \/
   (200 = 500 /\
    success_of [("success", PBool true); ("trunks", PList []); ("error", PNone)] = false)).
Proof.
  split; [reflexivity|].
  apply (telephony_route_status configured accepting Main.GetInboundTrunks []).
  reflexivity.
Defined.

Lemma inbound_trunk_route_requires_numbers_witness :
  Main.ib_phone_numbers {| Main.ib_phone_numbers := Some []; Main.ib_user_id := None;
                           Main.ib_organization_id := None |} = Some [] /\
  Main.create_inbound_trunk configured accepting
    {| Main.ib_phone_numbers := Some []; Main.ib_user_id := None;
       Main.ib_organization_id := None |} []
  = ([], Ok (400, [("error", PStr "phone_numbers required")])).
Proof.
  split; [reflexivity|].
  apply inbound_trunk_route_requires_numbers. right. reflexivity.
Defined.

Lemma outbound_trunk_route_default_port_witness :
  creds_ok configured = true /\
  exists info, info.(ot_address) = "sip.example.com:5060" /\
    info.(ot_auth_username) = "u1".
Proof.
  split; [reflexivity|].
  destruct (outbound_trunk_route_default_port configured accepting
              {| Main.ob_username := Some "u1"; Main.ob_password := Some "p1";
                 Main.ob_sip_domain := Some "sip.example.com";
                 Main.ob_phone_numbers := Some ["+15550001111"];
                 Main.ob_user_id := None; Main.ob_organization_id := None;
                 Main.ob_port := None |}
              "u1" "p1" "sip.example.com" ["+15550001111"] []
              eq_refl eq_refl eq_refl eq_refl eq_refl eq_refl)
    as [info [H1 [H2 _]]].
  exists info. split; assumption.
Defined.

Lemma http_url_scheme_witness :
  contains "wss://" "lk.example.com" = false /\ contains "ws://" "lk.example.com" = false /\
  http_url_of "wss://lk.example.com" = "https://lk.example.com".
Proof.
  split; [reflexivity|]. split; [reflexivity|].
  destruct (http_url_scheme "lk.example.com" eq_refl eq_refl) as [H _]. exact H.
Defined.


Lemma magnus_url_join_witness :
  magnus_init (Some "https://billing.example.com/api//") (Some "mk_1") None
    "" "" "acct_7" 30 = Ok sample_magnus /\
  exists base path, request_url sample_magnus "//dids" = base ++ "/" ++ path /\
    base = "https://billing.example.com/api".
Proof.
  split; [reflexivity|].
  destruct (magnus_url_join (Some "https://billing.example.com/api//") (Some "mk_1") None
              "" "" "acct_7" 30 sample_magnus eq_refl "//dids")
    as [base [path [H1 [H2 _]]]].
  exists base, path. split; [exact H1|]. rewrite H2. reflexivity.
Defined.

